(** * LAWONTIP: the conversational retrieval turn of [app.py]

    A shallow embedding of the chat page of [LAWONTIPApp]: the session
    state ([st.session_state.page], [.messages], [.memory]), the two
    prompt templates, and the body of [render_chat_page] that handles one
    user turn.  The classes imported from langchain (the window memory,
    the prompt template, the retrieval chain) are not part of the
    repository; they are modelled from the specification, each under a
    comment that says so. *)

From Stdlib Require Import String Ascii List Arith Lia Bool.
Import ListNotations.

Open Scope string_scope.
Open Scope list_scope.

(** ** Exceptions *)

(** The four failure kinds the orchestration distinguishes. *)
Inductive ErrorKind : Type :=
| RetrievalUnavailable
| TemplateBindingError
| GenerationUnavailable
| GenerationTimeout.

(** A raised Python exception: its kind and the text [str(e)] gives. *)
Record Exception : Type := mkException {
  kind : ErrorKind;
  message : string
}.

Definition str (e : Exception) : string := message e.

(** A call that either returns or raises. *)
Inductive Result (A : Type) : Type :=
| Ok (a : A)
| Raise (e : Exception).

Arguments Ok {A} a.
Arguments Raise {A} e.

Definition bind {A B : Type} (r : Result A) (f : A -> Result B) : Result B :=
  match r with
  | Ok a => f a
  | Raise e => Raise e
  end.

Notation "x <- r ;; k" := (bind r (fun x => k))
  (at level 61, r at next level, right associativity).

(** ** Turns and the window memory *)

Inductive Role : Type := user | assistant.

Record Turn : Type := mkTurn {
  role : Role;
  text : string
}.

(** A completed exchange: the user turn and the assistant turn answering it. *)
Definition Exchange : Type := (Turn * Turn)%type.

Definition turns_of (es : list Exchange) : list Turn :=
  flat_map (fun e => [fst e; snd e]) es.

(** The last [n] elements of a list, in their order. *)
Definition last_n {A : Type} (n : nat) (l : list A) : list A :=
  skipn (length l - n) l.

Module Memory.

(** Modelled from the spec: [ConversationBufferWindowMemory] is imported
    from [langchain.memory] (app.py line 11) and its body is not in the
    repository.  Section 4.1: an ordered sequence of the most recent [k]
    completed exchanges; [append] adds one exchange and, if the resulting
    count exceeds [k], evicts the oldest one (a single eviction);
    [history] returns the turns of the window, oldest first; [clear]
    resets to empty. *)
Record t : Type := mk {
  k : nat;
  exchanges : list Exchange
}.

(** [ConversationBufferWindowMemory(k=..)]: a fresh, empty memory. *)
Definition new (k0 : nat) : t := {| k := k0; exchanges := [] |}.

Definition append (m : t) (userTurn assistantTurn : Turn) : t :=
  let es := exchanges m ++ [(userTurn, assistantTurn)] in
  {| k := k m;
     exchanges := if (k m <? length es)%nat then tl es else es |}.

Definition history (m : t) : list Turn := turns_of (exchanges m).

Definition clear (m : t) : t := {| k := k m; exchanges := [] |}.

(** Appending a sequence of exchanges, one [append] each, in order. *)
Definition append_all (m : t) (es : list Exchange) : t :=
  fold_left (fun acc e => append acc (fst e) (snd e)) es m.

(** The invariant of section 4.1: never more than [k] exchanges. *)
Definition bounded (m : t) : Prop := length (exchanges m) <= k m.

End Memory.

(** ** Session state *)

(** An entry of [st.session_state.messages]: the dict
    [{"role": .., "content": ..}]. *)
Record Message : Type := mkMessage {
  msg_role : string;
  content : string
}.

(** [st.session_state] once [_initialize_session_state] has run. *)
Record SessionState : Type := mkSession {
  page : string;
  messages : list Message;
  memory : Memory.t
}.

(** [st.session_state] as the script finds it: any of the three keys may
    be absent (all of them are on the first run of a session). *)
Record SessionDict : Type := mkDict {
  d_page : option string;
  d_messages : option (list Message);
  d_memory : option Memory.t
}.

Definition empty_session : SessionDict :=
  {| d_page := None; d_messages := None; d_memory := None |}.

Definition _initialize_session_state (d : SessionDict) : SessionState :=
  {| page := match d_page d with Some p => p | None => "landing" end;
     messages := match d_messages d with Some l => l | None => [] end;
     memory := match d_memory d with
               | Some m => m
               | None => Memory.new 2
               end |}.

(** ** Prompt templates *)

Definition nl : string := String (ascii_of_nat 10) EmptyString.

(** The text of [_get_prompt_template] (app.py lines 805-815), line by
    line; the literal opens with a line break and ends with the
    indentation of its closing quotes. *)
Definition prompt_template : string :=
  String.concat nl
    [ EmptyString;
      "        As a legal chatbot specializing in Indian law, provide accurate and concise information based on the user's questions. ";
      "        Focus on relevant context from the knowledge base while avoiding unnecessary details. Your responses should be brief, ";
      "        professional, and contextually relevant. If a question falls outside the given context, rely on your knowledge base ";
      "        to generate an appropriate response. Prioritize the user's query and deliver precise information pertaining to Indian legal system.";
      "        ";
      "        CONTEXT: {context}";
      "        CHAT HISTORY: {chat_history}";
      "        QUESTION: {question}";
      "        ANSWER:";
      "        " ].

(** The text of [_get_scenario_prompt_template] (app.py lines 820-830). *)
Definition scenario_template : string :=
  String.concat nl
    [ EmptyString;
      "        You are a legal expert chatbot specializing in Indian law. When a user describes a scenario, analyze it, ";
      "        identify the relevant legal issue, and provide the most applicable law, section, or rule from the Indian legal context. ";
      "        Use the provided context from the knowledge base to support your answer. If the scenario involves exceptions ";
      "        (such as self-defense), explain the relevant law and its application concisely.";
      EmptyString;
      "        CONTEXT: {context}";
      "        CHAT HISTORY: {chat_history}";
      "        SCENARIO: {question}";
      "        ANSWER:";
      "        " ].

(** Modelled from the spec: [PromptTemplate] is imported from
    [langchain.prompts] (app.py line 9).  Section 3: a text with the
    placeholders context, chat_history and question.  Every call of the
    constructor makes a new Python object; [oid] is the identity of the
    object (what [is] compares), the two other fields are its contents
    (what [==] compares). *)
Record PromptTemplate : Type := mkPromptTemplate {
  oid : nat;
  template : string;
  input_variables : list string
}.

(** Python's [p is q]. *)
Definition same_object (p q : PromptTemplate) : Prop := oid p = oid q.

(** Python's [p == q]: equal contents. *)
Definition same_contents (p q : PromptTemplate) : Prop :=
  template p = template q /\ input_variables p = input_variables q.

(** Object construction threads the next free object identity. *)
Definition _get_prompt_template (next : nat) : PromptTemplate * nat :=
  ({| oid := next;
      template := prompt_template;
      input_variables := ["context"; "question"; "chat_history"] |},
   S next).

Definition _get_scenario_prompt_template (next : nat) : PromptTemplate * nat :=
  ({| oid := next;
      template := scenario_template;
      input_variables := ["context"; "question"; "chat_history"] |},
   S next).

(** The two interaction modes, and the label of the radio button that
    selects each (app.py lines 872-878). *)
Inductive Mode : Type := QuestionMode | ScenarioMode.

Definition input_type_of (mode : Mode) : string :=
  match mode with
  | QuestionMode => "Ask a legal question"
  | ScenarioMode => "Describe a scenario"
  end.

(** The choice of app.py lines 928-933. *)
Definition selectTemplate (input_type : string) (next : nat)
  : PromptTemplate * nat :=
  if (input_type =? "Describe a scenario")%string
  then _get_scenario_prompt_template next
  else _get_prompt_template next.

(** Keyword arguments of a [format] call. *)
Definition Kwargs : Type := list (string * string).

Fixpoint lookup (key : string) (kw : Kwargs) : option string :=
  match kw with
  | [] => None
  | (name, v) :: kw' => if (name =? key)%string then Some v else lookup key kw'
  end.

Definition binding_error (what : string) : Exception :=
  {| kind := TemplateBindingError; message := what |}.

(** Modelled from the spec: binding a template (section 4.3) fills every
    placeholder [{name}] of the text with the value given for [name] and
    fails with [TemplateBindingError] if a placeholder cannot be filled.
    [field] is the name of the placeholder being read, if any; a brace
    that opens or closes no placeholder is a binding error too. *)
Fixpoint format_from (tpl : string) (field : option string) (kw : Kwargs)
  : Result string :=
  match tpl with
  | EmptyString =>
      match field with
      | None => Ok EmptyString
      | Some name => Raise (binding_error name)
      end
  | String c rest =>
      match field with
      | None =>
          if (c =? "{")%char then format_from rest (Some EmptyString) kw
          else if (c =? "}")%char then Raise (binding_error (String c EmptyString))
          else s <- format_from rest None kw ;; Ok (String c s)
      | Some name =>
          if (c =? "}")%char then
            match lookup name kw with
            | Some v => s <- format_from rest None kw ;; Ok (v ++ s)%string
            | None => Raise (binding_error name)
            end
          else format_from rest (Some (name ++ String c EmptyString)%string) kw
      end
  end.

Definition format (p : PromptTemplate) (kw : Kwargs) : Result string :=
  format_from (template p) None kw.

(** ** The retrieval chain *)

Record Document : Type := mkDocument { page_content : string }.

(** The vector store: similarity search for a query and a result count. *)
Record VectorStore : Type := mkVectorStore {
  similarity_search : string -> nat -> Result (list Document)
}.

Definition Retriever : Type := string -> Result (list Document).
Definition LLM : Type := string -> Result string.

(** [db.as_retriever(search_type="similarity", search_kwargs={"k": n})]. *)
Definition as_retriever (db : VectorStore) (n : nat) : Retriever :=
  fun query => similarity_search db query n.

(** The external collaborators of a script run: loading the index from
    disk, building the model client, and the serialisation of the
    history turns for the prompt (its format is not fixed by the
    specification). *)
Record Services : Type := mkServices {
  load_local : Result VectorStore;
  ChatGroq : Result LLM;
  get_chat_history : list Turn -> string
}.

(** [self.qa]: the chain object with its mutable prompt field
    ([combine_docs_chain.llm_chain.prompt]).  Its memory is the object
    [st.session_state.memory] itself, so [invoke] below reads and updates
    the session's memory. *)
Record ConversationalRetrievalChain : Type := mkChain {
  prompt : PromptTemplate;
  retriever : Retriever;
  llm : LLM;
  chat_history_str : list Turn -> string
}.

Definition set_prompt (qa : ConversationalRetrievalChain) (p : PromptTemplate)
  : ConversationalRetrievalChain :=
  {| prompt := p; retriever := retriever qa; llm := llm qa;
     chat_history_str := chat_history_str qa |}.

(** Retrieved context: the concatenated document contents. *)
Definition combine_documents (docs : list Document) : string :=
  String.concat EmptyString (map page_content docs).

(** The bound prompt: context, history and utterance bound into the
    chain's template. *)
Definition bound_prompt (qa : ConversationalRetrievalChain)
    (docs : list Document) (m : Memory.t) (question : string) : Result string :=
  format (prompt qa)
    [ ("context", combine_documents docs);
      ("chat_history", chat_history_str qa (Memory.history m));
      ("question", question) ].

(** Modelled from the spec: [ConversationalRetrievalChain] is imported
    from [langchain.chains] (app.py line 12); [invoke] is the turn of
    section 4.5: retrieve with the utterance, bind context, history and
    utterance into the template, generate from the bound prompt, and only
    on success append (utterance, answer) to the memory and return the
    answer.  A failing step raises its error and nothing after it runs. *)
Definition invoke (qa : ConversationalRetrievalChain) (m : Memory.t)
    (question : string) : Result (string * Memory.t) :=
  docs <- retriever qa question ;;
  bound <- bound_prompt qa docs m question ;;
  answer <- llm qa bound ;;
  Ok (answer,
      Memory.append m (mkTurn user question) (mkTurn assistant answer)).

(** ** The chat page *)

(** What a script run puts on the page, in order.  Static markup (styles,
    headers, the status lines) is left out. *)
Inductive Element : Type :=
| chat_message (who : string) (body : string)
| st_error (body : string).

(** How a script run ends: it reaches its end, [st.stop()] halts it, or
    [st.rerun()] restarts it. *)
Inductive Control : Type := Finished | Stopped | Rerun.

Definition apology : string :=
  "I apologize, but I encountered an error while processing your request. Please try again.".

(** The outcome of one turn: the answer (the value of [result["answer"]]),
    the session state, what was put on the page, and the next free object
    identity. *)
Record TurnResult : Type := mkTurnResult {
  answer : string;
  session : SessionState;
  shown : list Element;
  next_oid : nat
}.

(** The body of [if prompt := st.chat_input(..)] in [render_chat_page]
    (app.py lines 893-947): one user turn. *)
Definition processTurn (qa : ConversationalRetrievalChain)
    (input_type utterance : string) (s : SessionState) (next : nat)
  : TurnResult :=
  let msgs := messages s ++ [mkMessage "user" utterance] in
  let '(tpl, next') := selectTemplate input_type next in
  match invoke (set_prompt qa tpl) (memory s) utterance with
  | Ok (ans, mem') =>
      {| answer := ans;
         session := {| page := page s;
                       messages := msgs ++ [mkMessage "assistant" ans];
                       memory := mem' |};
         shown := [chat_message "user" utterance;
                   chat_message "assistant" ans];
         next_oid := next' |}
  | Raise e =>
      {| answer := apology;
         session := {| page := page s;
                       messages := msgs ++ [mkMessage "assistant" apology];
                       memory := memory s |};
         shown := [chat_message "user" utterance;
                   st_error ("Error generating response: " ++ str e)%string;
                   chat_message "assistant" apology];
         next_oid := next' |}
  end.

(** [_initialize_llm_components] (app.py lines 780-801): the chain, or the
    error box after which the script stops. *)
Definition _initialize_llm_components (env : Services) (next : nat)
  : (ConversationalRetrievalChain * nat) + Element :=
  match load_local env with
  | Raise e => inr (st_error ("Could not load vector store: " ++ str e)%string)
  | Ok db =>
      match ChatGroq env with
      | Raise e =>
          inr (st_error ("Could not initialize LLM components: " ++ str e)%string)
      | Ok model =>
          let '(tpl, next') := _get_prompt_template next in
          inl ({| prompt := tpl;
                  retriever := as_retriever db 4;
                  llm := model;
                  chat_history_str := get_chat_history env |}, next')
      end
  end.

(** [reset_conversation] (app.py lines 833-837); it ends in [st.rerun()]. *)
Definition reset_conversation (s : SessionState) : SessionState :=
  {| page := page s;
     messages := [];
     memory := Memory.clear (memory s) |}.

(** The widgets of the chat page as one script run reads them. *)
Record Widgets : Type := mkWidgets {
  back_home : bool;
  input_type : string;
  chat_input : option string;
  clear_chat : bool;
  new_question : bool
}.

Record Outcome : Type := mkOutcome {
  state : SessionState;
  rendered : list Element;
  control : Control;
  answered : option string;
  free_oid : nat
}.

(** The transcript loop of app.py lines 883-890. *)
Definition display_messages (msgs : list Message) : list Element :=
  map (fun m => chat_message (msg_role m) (content m)) msgs.

(** [render_chat_page] (app.py lines 839-960), one script run. *)
Definition render_chat_page (env : Services) (w : Widgets)
    (s : SessionState) (next : nat) : Outcome :=
  if back_home w then
    {| state := {| page := "landing"; messages := messages s;
                   memory := memory s |};
       rendered := []; control := Rerun; answered := None;
       free_oid := next |}
  else
    match _initialize_llm_components env next with
    | inr box =>
        {| state := s; rendered := [box]; control := Stopped;
           answered := None; free_oid := next |}
    | inl (qa, next1) =>
        let transcript := display_messages (messages s) in
        let '(s1, out1, ans, next2) :=
          match chat_input w with
          | Some utterance =>
              if (utterance =? EmptyString)%string
              then (s, [], None, next1)
              else
                let r := processTurn qa (input_type w) utterance s next1 in
                (session r, shown r, Some (answer r), next_oid r)
          | None => (s, [], None, next1)
          end in
        if clear_chat w then
          {| state := reset_conversation s1;
             rendered := transcript ++ out1; control := Rerun;
             answered := ans; free_oid := next2 |}
        else if new_question w then
          {| state := s1; rendered := transcript ++ out1; control := Rerun;
             answered := ans; free_oid := next2 |}
        else
          {| state := s1; rendered := transcript ++ out1;
             control := Finished; answered := ans; free_oid := next2 |}
    end.

(** The chain as a turn uses it: [self.qa] with the prompt field set to
    the template of the selected input type. *)
Definition chain_for (qa : ConversationalRetrievalChain)
    (input_type : string) (next : nat) : ConversationalRetrievalChain :=
  set_prompt qa (fst (selectTemplate input_type next)).

(** A collaborator call of the turn fails with [e]: the retrieval, the
    template binding, or the generation. *)
Inductive collaborator_fails (qa : ConversationalRetrievalChain)
    (m : Memory.t) (question : string) (e : Exception) : Prop :=
| retrieval_fails :
    retriever qa question = Raise e ->
    collaborator_fails qa m question e
| binding_fails (docs : list Document) :
    retriever qa question = Ok docs ->
    bound_prompt qa docs m question = Raise e ->
    collaborator_fails qa m question e
| generation_fails (docs : list Document) (bound : string) :
    retriever qa question = Ok docs ->
    bound_prompt qa docs m question = Ok bound ->
    llm qa bound = Raise e ->
    collaborator_fails qa m question e.

(** Two calls for the same input type, one after the other. *)
Definition two_calls (input_type : string) (next : nat)
  : PromptTemplate * PromptTemplate :=
  let '(p1, next1) := selectTemplate input_type next in
  let '(p2, _) := selectTemplate input_type next1 in
  (p1, p2).

(** The text of a page element, and a page that shows a given text
    somewhere in one of its elements. *)
Definition body (el : Element) : string :=
  match el with
  | chat_message _ b => b
  | st_error b => b
  end.

Definition shows_text (page_out : list Element) (t : string) : Prop :=
  exists el pre post,
    In el page_out /\ body el = (pre ++ t ++ post)%string.

(** Later turns of the session, each with the chain of its own script
    run, its input type and its utterance. *)
Record LaterTurn : Type := mkLaterTurn {
  lt_chain : ConversationalRetrievalChain;
  lt_input_type : string;
  lt_utterance : string
}.

Fixpoint run_turns (turns : list LaterTurn) (s : SessionState) (next : nat)
  : SessionState * nat :=
  match turns with
  | [] => (s, next)
  | t :: turns' =>
      let r := processTurn (lt_chain t) (lt_input_type t) (lt_utterance t)
                 s next in
      run_turns turns' (session r) (next_oid r)
  end.

(** ** Stub collaborators, for running the page on concrete inputs *)

Module Stub.

Definition documents : list Document :=
  [ mkDocument "Section 378 IPC defines theft.";
    mkDocument "Section 96 IPC: nothing is an offence which is done in the exercise of the right of private defence." ].

Definition db : VectorStore :=
  {| similarity_search := fun _ n => Ok (firstn n documents) |}.

Definition index_down : Exception :=
  {| kind := RetrievalUnavailable;
     message := "RetrievalUnavailable: my_vector_store cannot be read" |}.

Definition db_down : VectorStore :=
  {| similarity_search := fun _ _ => Raise index_down |}.

Definition model : LLM := fun _ => Ok "Answer A".

Definition timeout : Exception :=
  {| kind := GenerationTimeout;
     message := "GenerationTimeout: no reply within the deadline" |}.

Definition model_timeout : LLM := fun _ => Raise timeout.

Definition serialize (turns : list Turn) : string :=
  String.concat nl (map text turns).

Definition env : Services :=
  {| load_local := Ok db; ChatGroq := Ok model;
     get_chat_history := serialize |}.

Definition env_no_index : Services :=
  {| load_local := Raise index_down; ChatGroq := Ok model;
     get_chat_history := serialize |}.

Definition env_query_down : Services :=
  {| load_local := Ok db_down; ChatGroq := Ok model;
     get_chat_history := serialize |}.

(** The chains [_initialize_llm_components] builds from the services. *)
Definition qa : ConversationalRetrievalChain :=
  {| prompt := fst (_get_prompt_template 0);
     retriever := as_retriever db 4; llm := model;
     chat_history_str := serialize |}.

Definition qa_timeout : ConversationalRetrievalChain :=
  {| prompt := fst (_get_prompt_template 0);
     retriever := as_retriever db 4; llm := model_timeout;
     chat_history_str := serialize |}.

Definition qa_query_down : ConversationalRetrievalChain :=
  {| prompt := fst (_get_prompt_template 0);
     retriever := as_retriever db_down 4; llm := model;
     chat_history_str := serialize |}.

(** A session on the chat page with one completed exchange. *)
Definition E1 : Exchange :=
  (mkTurn user "What is theft?", mkTurn assistant "See section 378 IPC.").
Definition E2 : Exchange :=
  (mkTurn user "And robbery?", mkTurn assistant "See section 390 IPC.").
Definition E3 : Exchange :=
  (mkTurn user "And dacoity?", mkTurn assistant "See section 391 IPC.").

Definition session : SessionState :=
  {| page := "chat";
     messages := [ mkMessage "user" "What is theft?";
                   mkMessage "assistant" "See section 378 IPC." ];
     memory := Memory.append (Memory.new 2) (fst E1) (snd E1) |}.

(** The user submits an utterance; no button is pressed. *)
Definition ask (it utterance : string) : Widgets :=
  {| back_home := false; input_type := it;
     chat_input := Some utterance;
     clear_chat := false; new_question := false |}.

End Stub.

(** ** Configuration and the application object *)

(** Python's truth value of what [os.getenv] returns: [None] and the empty
    string are both false. *)
Definition is_set (v : option string) : bool :=
  match v with
  | Some key => negb (key =? EmptyString)%string
  | None => false
  end.

(** The list [missing_keys] of [LAWONTIPConfig.__init__] (app.py lines
    39-43). *)
Definition missing_keys (google groq : option string) : list string :=
  (if is_set google then [] else ["GOOGLE_API_KEY"])
  ++ (if is_set groq then [] else ["GROQ_API_KEY"]).

(** The text of the error box of app.py lines 46-56. *)
Definition missing_keys_text (missing : list string) : string :=
  String.concat nl
    [ EmptyString;
      ("            Missing required API keys: "
       ++ String.concat ", " missing)%string;
      "            ";
      "            Please create a .env file in the project root with the following variables:";
      "            GOOGLE_API_KEY=your_google_api_key_here";
      "            GROQ_API_KEY=your_groq_api_key_here";
      "            ";
      "            You can get these keys from:";
      "            - Google AI: https://makersuite.google.com/app/apikey";
      "            - Groq: https://console.groq.com/keys";
      "            " ].

Record LAWONTIPConfig : Type := mkConfig {
  google_api_key : option string;
  groq_api_key : option string;
  database_url : string
}.

(** [LAWONTIPConfig.__init__] (app.py lines 32-60): the configuration, or
    the error box after which [st.stop()] halts the script. *)
Definition LAWONTIPConfig_init (google groq : option string)
  : LAWONTIPConfig + Element :=
  match missing_keys google groq with
  | [] => inl {| google_api_key := google;
                 groq_api_key := groq;
                 database_url := "sqlite:///lawontip_users.db" |}
  | missing => inr (st_error (missing_keys_text missing))
  end.

(** [go_to_page] (app.py lines 717-720); it ends in [st.rerun()]. *)
Definition go_to_page (target : string) (s : SessionState) : SessionState :=
  {| page := target; messages := messages s; memory := memory s |}.

(** [render_landing_page] (app.py lines 722-778): static markup, and the
    button that leads to the chat page. *)
Definition render_landing_page (start_chat : bool) (s : SessionState)
    (next : nat) : Outcome :=
  if start_chat then
    {| state := go_to_page "chat" s; rendered := []; control := Rerun;
       answered := None; free_oid := next |}
  else
    {| state := s; rendered := []; control := Finished;
       answered := None; free_oid := next |}.

(** What one execution of the script reads from outside: the two
    environment variables, the collaborators, and the widgets of both
    pages. *)
Record RunInput : Type := mkRunInput {
  os_google : option string;
  os_groq : option string;
  services : Services;
  start_chat : bool;
  chat_widgets : Widgets
}.

(** [run] (app.py lines 962-967): the page to render; any other value of
    [st.session_state.page] renders nothing. *)
Definition run (r : RunInput) (s : SessionState) (next : nat) : Outcome :=
  if (page s =? "landing")%string then
    render_landing_page (start_chat r) s next
  else if (page s =? "chat")%string then
    render_chat_page (services r) (chat_widgets r) s next
  else
    {| state := s; rendered := []; control := Finished;
       answered := None; free_oid := next |}.

(** [st.session_state] with all three keys present. *)
Definition to_dict (s : SessionState) : SessionDict :=
  {| d_page := Some (page s);
     d_messages := Some (messages s);
     d_memory := Some (memory s) |}.

Record ScriptResult : Type := mkScriptResult {
  session_after : SessionDict;
  output : list Element;
  ended : Control;
  oid_after : nat
}.

(** One execution of the script (app.py lines 969-971):
    [LAWONTIPApp.__init__] (lines 689-694) builds the configuration first
    and initialises the session state after it; then [run].  The database
    manager, the style manager and [_configure_page] between them read
    and write no session state and are left out. *)
Definition script (r : RunInput) (d : SessionDict) (next : nat)
  : ScriptResult :=
  match LAWONTIPConfig_init (os_google r) (os_groq r) with
  | inr box =>
      {| session_after := d; output := [box]; ended := Stopped;
         oid_after := next |}
  | inl _ =>
      let o := run r (_initialize_session_state d) next in
      {| session_after := to_dict (state o); output := rendered o;
         ended := control o; oid_after := free_oid o |}
  end.

(** A session: the executions of the script one after the other, each on
    the session state the one before left. *)
Fixpoint scripts (runs : list RunInput) (d : SessionDict) (next : nat)
  : SessionDict * nat :=
  match runs with
  | [] => (d, next)
  | r :: runs' =>
      scripts runs' (session_after (script r d next))
        (oid_after (script r d next))
  end.

(** The utterance a run of the chat page processes: the chat input, when
    it is not empty. *)
Definition submitted (w : Widgets) : option string :=
  match chat_input w with
  | Some utterance =>
      if (utterance =? EmptyString)%string then None else Some utterance
  | None => None
  end.

(** The transcript of a list of turns (utterance, answer shown), and the
    exchange of a turn. *)
Definition transcript_of (turns : list (string * string)) : list Message :=
  flat_map (fun t => [mkMessage "user" (fst t); mkMessage "assistant" (snd t)])
    turns.

Definition exchange_of (t : string * string) : Exchange :=
  (mkTurn user (fst t), mkTurn assistant (snd t)).

(** A session state as the script keeps it, for the turns processed since
    the transcript was last empty. *)
Record well_formed (s : SessionState) (turns : list (string * string))
  : Prop := mkWellFormed {
  wf_page : page s = "landing" \/ page s = "chat";
  wf_k : Memory.k (memory s) = 2;
  wf_bounded : Memory.bounded (memory s);
  wf_messages : messages s = transcript_of turns;
  wf_utterances : forall t, In t turns -> fst t <> EmptyString;
  wf_memory : forall e, In e (Memory.exchanges (memory s)) ->
                        exists t, In t turns /\ e = exchange_of t
}.

(** The session dictionary of a session: still empty, or fully
    initialised and well formed. *)
Definition dict_ok (d : SessionDict) : Prop :=
  d = empty_session \/
  exists s turns, d = to_dict s /\ well_formed s turns.

Definition is_chat_message (el : Element) : bool :=
  match el with
  | chat_message _ _ => true
  | st_error _ => false
  end.

(** ** Sample inputs of script executions *)

Module Sample.

(** Both keys set, the services up, nothing pressed or typed. *)
Definition idle : RunInput :=
  {| os_google := Some "g-key"; os_groq := Some "q-key";
     services := Stub.env; start_chat := false;
     chat_widgets :=
       {| back_home := false; input_type := "Ask a legal question";
          chat_input := None; clear_chat := false;
          new_question := false |} |}.

Definition press_start : RunInput :=
  {| os_google := Some "g-key"; os_groq := Some "q-key";
     services := Stub.env; start_chat := true;
     chat_widgets := chat_widgets idle |}.

Definition say (it utterance : string) (env : Services) : RunInput :=
  {| os_google := Some "g-key"; os_groq := Some "q-key";
     services := env; start_chat := false;
     chat_widgets := Stub.ask it utterance |}.

Definition press_back : Widgets :=
  {| back_home := true; input_type := "Ask a legal question";
     chat_input := Some "What is theft?"; clear_chat := false;
     new_question := false |}.

Definition press_clear : Widgets :=
  {| back_home := false; input_type := "Ask a legal question";
     chat_input := Some "And robbery?"; clear_chat := true;
     new_question := false |}.

Definition no_groq : Exception :=
  {| kind := GenerationUnavailable;
     message := "GenerationUnavailable: the model client cannot be built" |}.

Definition env_no_model : Services :=
  {| load_local := Ok Stub.db; ChatGroq := Raise no_groq;
     get_chat_history := Stub.serialize |}.

Definition env_timeout : Services :=
  {| load_local := Ok Stub.db; ChatGroq := Ok Stub.model_timeout;
     get_chat_history := Stub.serialize |}.

(** The first key absent, the second set to the empty string. *)
Definition no_keys : RunInput :=
  {| os_google := None; os_groq := Some EmptyString;
     services := Stub.env; start_chat := true;
     chat_widgets := Stub.ask "Ask a legal question" "What is theft?" |}.

Definition leave : RunInput :=
  {| os_google := Some "g-key"; os_groq := Some "q-key";
     services := Stub.env_no_index; start_chat := false;
     chat_widgets := press_back |}.

(** Two errors of different kinds with the same text, one raised by the
    retrieval and one by the generation. *)
Definition boom_retrieval : Exception :=
  {| kind := RetrievalUnavailable; message := "boom" |}.

Definition boom_generation : Exception :=
  {| kind := GenerationTimeout; message := "boom" |}.

Definition db_boom : VectorStore :=
  {| similarity_search := fun _ _ => Raise boom_retrieval |}.

Definition model_boom : LLM := fun _ => Raise boom_generation.

Definition qa_retrieval_boom : ConversationalRetrievalChain :=
  {| prompt := fst (_get_prompt_template 0);
     retriever := as_retriever db_boom 4; llm := Stub.model;
     chat_history_str := Stub.serialize |}.

Definition qa_generation_boom : ConversationalRetrievalChain :=
  {| prompt := fst (_get_prompt_template 0);
     retriever := as_retriever Stub.db 4; llm := model_boom;
     chat_history_str := Stub.serialize |}.

Definition env_retrieval_boom : Services :=
  {| load_local := Ok db_boom; ChatGroq := Ok Stub.model;
     get_chat_history := Stub.serialize |}.

Definition env_generation_boom : Services :=
  {| load_local := Ok Stub.db; ChatGroq := Ok model_boom;
     get_chat_history := Stub.serialize |}.

(** A model that answers with the prompt it was given. *)
Definition qa_echo : ConversationalRetrievalChain :=
  {| prompt := fst (_get_prompt_template 0);
     retriever := as_retriever Stub.db 4; llm := fun bound => Ok bound;
     chat_history_str := Stub.serialize |}.

End Sample.

(** * Properties of the window memory *)

Section WindowLemmas.

Context {A : Type}.

Lemma last_n_short (n : nat) (l : list A) :
  length l <= n -> last_n n l = l.
Proof.
  intros Hle. unfold last_n.
  replace (length l - n) with 0 by lia. apply skipn_0.
Qed.

Lemma length_last_n (n : nat) (l : list A) :
  length (last_n n l) = Nat.min n (length l).
Proof.
  unfold last_n. rewrite length_skipn. lia.
Qed.

(** Keeping the last [n] before more elements arrive loses nothing of
    the final window. *)
Lemma last_n_app_window (n : nat) (xs ys : list A) :
  last_n n (last_n n xs ++ ys) = last_n n (xs ++ ys).
Proof.
  destruct (Nat.le_gt_cases (length xs) n) as [Hle | Hgt].
  - now rewrite (last_n_short n xs).
  - unfold last_n at 1 3.
    rewrite !length_app, length_last_n.
    replace (Nat.min n (length xs) + length ys - n) with (length ys) by lia.
    replace (length xs + length ys - n)
      with (length ys + (length xs - n)) by lia.
    rewrite <- skipn_skipn. f_equal.
    unfold last_n. rewrite skipn_app.
    replace (length xs - n - length xs) with 0 by lia.
    now rewrite skipn_0.
Qed.

Lemma last_n_app_long (n : nat) (xs ys : list A) :
  n <= length ys -> last_n n (xs ++ ys) = last_n n ys.
Proof.
  intros Hle. unfold last_n.
  rewrite length_app, skipn_app.
  replace (length xs + length ys - n - length xs)
    with (length ys - n) by lia.
  rewrite skipn_all2 by lia. reflexivity.
Qed.

End WindowLemmas.

Lemma length_turns_of (es : list Exchange) :
  length (turns_of es) = 2 * length es.
Proof.
  unfold turns_of. induction es as [| e es IH]; simpl; [reflexivity | lia].
Qed.

Lemma append_window (m : Memory.t) (u a : Turn) :
  Memory.bounded m ->
  Memory.exchanges (Memory.append m u a)
  = last_n (Memory.k m) (Memory.exchanges m ++ [(u, a)]).
Proof.
  unfold Memory.bounded, Memory.append. cbn [Memory.exchanges Memory.k].
  intros Hb.
  destruct (Nat.ltb_spec (Memory.k m)
              (length (Memory.exchanges m ++ [(u, a)]))) as [Hlt | Hge].
  - rewrite length_app in Hlt. cbn [length] in Hlt.
    unfold last_n. rewrite length_app. cbn [length].
    replace (length (Memory.exchanges m) + 1 - Memory.k m) with 1 by lia.
    destruct (Memory.exchanges m ++ [(u, a)]); reflexivity.
  - now rewrite last_n_short.
Qed.

Lemma append_k (m : Memory.t) (u a : Turn) :
  Memory.k (Memory.append m u a) = Memory.k m.
Proof. reflexivity. Qed.

Lemma append_bounded (m : Memory.t) (u a : Turn) :
  Memory.bounded m -> Memory.bounded (Memory.append m u a).
Proof.
  intros Hb. unfold Memory.bounded.
  rewrite append_window, append_k, length_last_n by assumption. lia.
Qed.

Lemma append_all_k (es : list Exchange) (m : Memory.t) :
  Memory.k (Memory.append_all m es) = Memory.k m.
Proof.
  revert m. induction es as [| e es IH]; intros m; [reflexivity |].
  cbn [Memory.append_all fold_left].
  change (fold_left _ es ?x) with (Memory.append_all x es).
  now rewrite IH.
Qed.

(** After any run of appends the window is the last [k] of everything
    that was ever in it or appended to it. *)
Lemma append_all_window (es : list Exchange) (m : Memory.t) :
  Memory.bounded m ->
  Memory.exchanges (Memory.append_all m es)
  = last_n (Memory.k m) (Memory.exchanges m ++ es).
Proof.
  revert m. induction es as [| [u a] es IH]; intros m Hb.
  - cbn. rewrite app_nil_r. symmetry. now apply last_n_short.
  - cbn [Memory.append_all fold_left fst snd].
    change (fold_left _ es ?x) with (Memory.append_all x es).
    rewrite IH by now apply append_bounded.
    rewrite append_k, append_window by assumption.
    rewrite last_n_app_window, <- app_assoc. reflexivity.
Qed.

(** Every memory built from a fresh one by appends keeps the invariant. *)
Lemma append_all_bounded (es : list Exchange) (m : Memory.t) :
  Memory.bounded m -> Memory.bounded (Memory.append_all m es).
Proof.
  intros Hb. unfold Memory.bounded.
  rewrite append_all_window, append_all_k, length_last_n by assumption. lia.
Qed.

Lemma new_bounded (k0 : nat) : Memory.bounded (Memory.new k0).
Proof. unfold Memory.bounded. cbn. lia. Qed.

(** C1. The conversation memory of the session is a FIFO window of k = 2
    exchanges.  The memory [_initialize_session_state] creates has k = 2
    and is empty; for a memory with k = 2 that holds at most 2 exchanges,
    appending any sequence of more than 2 exchanges leaves [history]
    equal to the turns of the last 2 appended exchanges, in their order,
    and never more than 2 * 2 turns; and a memory holding [E1; E2] holds
    [E2; E3] after E3 is appended. *)
Theorem memory_fifo_window (m : Memory.t) (es : list Exchange) :
  Memory.k m = 2 ->
  Memory.bounded m ->
  2 < length es ->
  memory (_initialize_session_state empty_session) = Memory.new 2 /\
  Memory.history (Memory.append_all m es) = turns_of (last_n 2 es) /\
  length (Memory.history (Memory.append_all m es)) <= 2 * 2 /\
  (forall E1 E2 E3 : Exchange,
      Memory.exchanges m = [E1; E2] ->
      Memory.exchanges (Memory.append m (fst E3) (snd E3)) = [E2; E3]).
Proof.
  intros Hk Hb HN.
  assert (Hw : Memory.exchanges (Memory.append_all m es) = last_n 2 es).
  { rewrite append_all_window, Hk by assumption.
    apply last_n_app_long. lia. }
  split; [reflexivity |]. split; [| split].
  - unfold Memory.history. now rewrite Hw.
  - unfold Memory.history.
    rewrite Hw, length_turns_of, length_last_n. lia.
  - intros E1 E2 [u3 a3] HE. cbn [fst snd].
    rewrite append_window, Hk, HE by assumption. reflexivity.
Qed.

Lemma memory_fifo_window_witness :
  Memory.k (Memory.new 2) = 2 /\
  Memory.bounded (Memory.new 2) /\
  2 < length [Stub.E1; Stub.E2; Stub.E3] /\
  Memory.history (Memory.append_all (Memory.new 2) [Stub.E1; Stub.E2; Stub.E3])
  = turns_of (last_n 2 [Stub.E1; Stub.E2; Stub.E3]).
Proof.
  assert (Hk : Memory.k (Memory.new 2) = 2) by reflexivity.
  assert (Hb : Memory.bounded (Memory.new 2))
    by (unfold Memory.bounded; simpl; lia).
  assert (HN : 2 < length [Stub.E1; Stub.E2; Stub.E3]) by (simpl; lia).
  split; [exact Hk |]. split; [exact Hb |]. split; [exact HN |].
  exact (proj1 (proj2
    (memory_fifo_window (Memory.new 2) [Stub.E1; Stub.E2; Stub.E3] Hk Hb HN))).
Defined.

(** C9. Whatever the session holds, after [reset_conversation] the
    history of the memory is empty (and the transcript too); [clear] is a
    total operation, so it has no error case, and the history of a
    cleared memory is empty for every memory. *)
Theorem reset_then_history_empty (s : SessionState) :
  Memory.history (memory (reset_conversation s)) = [] /\
  messages (reset_conversation s) = [] /\
  (forall m : Memory.t,
      Memory.history (Memory.clear m) = [] /\
      Memory.k (Memory.clear m) = Memory.k m).
Proof.
  split; [reflexivity |]. split; [reflexivity |].
  intros m. split; reflexivity.
Qed.

(** * Template selection *)

Lemma selectTemplate_next (it : string) (n : nat) :
  snd (selectTemplate it n) = S n /\ oid (fst (selectTemplate it n)) = n.
Proof.
  unfold selectTemplate. destruct (it =? "Describe a scenario")%string;
    split; reflexivity.
Qed.

Lemma selectTemplate_contents (it : string) (n n' : nat) :
  same_contents (fst (selectTemplate it n)) (fst (selectTemplate it n')).
Proof.
  unfold selectTemplate, same_contents.
  destruct (it =? "Describe a scenario")%string; split; reflexivity.
Qed.

Lemma two_calls_eq (it : string) (n : nat) :
  two_calls it n
  = (fst (selectTemplate it n), fst (selectTemplate it (S n))).
Proof.
  unfold two_calls.
  pose proof (selectTemplate_next it n) as [Hn _].
  destruct (selectTemplate it n) as [p1 n1]. cbn [snd] in Hn. subst n1.
  destruct (selectTemplate it (S n)) as [p2 n2]. reflexivity.
Qed.

(** C8, as stated, fails: two calls for the question mode return two
    different template objects. *)
Lemma two_calls_distinct_objects :
  oid (fst (two_calls (input_type_of QuestionMode) 0)) = 0 /\
  oid (snd (two_calls (input_type_of QuestionMode) 0)) = 1 /\
  ~ same_object (fst (two_calls (input_type_of QuestionMode) 0))
                (snd (two_calls (input_type_of QuestionMode) 0)).
Proof.
  split; [reflexivity |]. split; [reflexivity |].
  vm_compute. discriminate.
Qed.

(** C8, amended. For every mode, two calls return templates with the
    same text and the same input variables; every call builds a new
    template object, so the two results are never the same object. *)
Theorem selectTemplate_same_contents (mode : Mode) (n : nat) :
  same_contents (fst (two_calls (input_type_of mode) n))
                (snd (two_calls (input_type_of mode) n)) /\
  ~ same_object (fst (two_calls (input_type_of mode) n))
                (snd (two_calls (input_type_of mode) n)).
Proof.
  rewrite two_calls_eq. cbn [fst snd]. split.
  - apply selectTemplate_contents.
  - unfold same_object.
    rewrite (proj2 (selectTemplate_next _ n)),
            (proj2 (selectTemplate_next _ (S n))).
    lia.
Qed.

(** * One turn *)

Lemma last_n_snoc {A : Type} (n : nat) (xs : list A) (x : A) :
  0 < n -> last_n n (xs ++ [x]) = last_n (n - 1) xs ++ [x].
Proof.
  intros Hn. unfold last_n. rewrite length_app, skipn_app. cbn [length].
  replace (length xs + 1 - n - length xs) with 0 by lia.
  replace (length xs + 1 - n) with (length xs - (n - 1)) by lia.
  reflexivity.
Qed.

(** A turn's chain raises exactly when one of its collaborator calls
    fails, and with that call's error. *)
Lemma invoke_raise_iff (qa : ConversationalRetrievalChain) (m : Memory.t)
    (q : string) (e : Exception) :
  invoke qa m q = Raise e <-> collaborator_fails qa m q e.
Proof.
  unfold invoke. split.
  - destruct (retriever qa q) as [docs | e1] eqn:Hr; cbn [bind].
    + destruct (bound_prompt qa docs m q) as [b | e2] eqn:Hb; cbn [bind].
      * destruct (llm qa b) as [a | e3] eqn:Hl; cbn [bind]; [discriminate |].
        intros [= <-]. now apply generation_fails with docs b.
      * intros [= <-]. now apply binding_fails with docs.
    + intros [= <-]. now apply retrieval_fails.
  - intros [Hr | docs Hr Hb | docs b Hr Hb Hl].
    + now rewrite Hr.
    + rewrite Hr. cbn [bind]. now rewrite Hb.
    + rewrite Hr. cbn [bind]. rewrite Hb. cbn [bind]. now rewrite Hl.
Qed.

Lemma invoke_ok (qa : ConversationalRetrievalChain) (m : Memory.t)
    (q : string) (docs : list Document) (b a : string) :
  retriever qa q = Ok docs ->
  bound_prompt qa docs m q = Ok b ->
  llm qa b = Ok a ->
  invoke qa m q
  = Ok (a, Memory.append m (mkTurn user q) (mkTurn assistant a)).
Proof.
  intros Hr Hb Hl. unfold invoke.
  rewrite Hr. cbn [bind]. rewrite Hb. cbn [bind]. now rewrite Hl.
Qed.

(** What the model generates from is the bound prompt. *)
Lemma invoke_generates_from_bound_prompt (qa : ConversationalRetrievalChain)
    (m : Memory.t) (q : string) (docs : list Document) (b : string) :
  retriever qa q = Ok docs ->
  bound_prompt qa docs m q = Ok b ->
  invoke qa m q
  = (a <- llm qa b ;;
     Ok (a, Memory.append m (mkTurn user q) (mkTurn assistant a))).
Proof.
  intros Hr Hb. unfold invoke. rewrite Hr. cbn [bind]. now rewrite Hb.
Qed.

Section OneTurn.

Variable qa : ConversationalRetrievalChain.
Variables input_type utterance : string.
Variable s : SessionState.
Variable next : nat.

Lemma processTurn_raise (e : Exception) :
  invoke (chain_for qa input_type next) (memory s) utterance = Raise e ->
  processTurn qa input_type utterance s next
  = {| answer := apology;
       session :=
         {| page := page s;
            messages := (messages s ++ [mkMessage "user" utterance])
                        ++ [mkMessage "assistant" apology];
            memory := memory s |};
       shown := [ chat_message "user" utterance;
                  st_error ("Error generating response: " ++ str e)%string;
                  chat_message "assistant" apology ];
       next_oid := snd (selectTemplate input_type next) |}.
Proof.
  unfold processTurn, chain_for.
  destruct (selectTemplate input_type next) as [tpl n1]. cbn [fst snd].
  now intros ->.
Qed.

Lemma processTurn_ok (ans : string) (m' : Memory.t) :
  invoke (chain_for qa input_type next) (memory s) utterance = Ok (ans, m') ->
  processTurn qa input_type utterance s next
  = {| answer := ans;
       session :=
         {| page := page s;
            messages := (messages s ++ [mkMessage "user" utterance])
                        ++ [mkMessage "assistant" ans];
            memory := m' |};
       shown := [ chat_message "user" utterance;
                  chat_message "assistant" ans ];
       next_oid := snd (selectTemplate input_type next) |}.
Proof.
  unfold processTurn, chain_for.
  destruct (selectTemplate input_type next) as [tpl n1]. cbn [fst snd].
  now intros ->.
Qed.

(** C2. If a collaborator call of the turn fails (retrieval, template
    binding or generation), the memory of the session after the turn is
    the memory before it; in particular its history is the same. *)
Theorem failed_turn_leaves_memory (e : Exception) :
  collaborator_fails (chain_for qa input_type next) (memory s) utterance e ->
  memory (session (processTurn qa input_type utterance s next)) = memory s /\
  Memory.history
    (memory (session (processTurn qa input_type utterance s next)))
  = Memory.history (memory s).
Proof.
  intros Hf. apply invoke_raise_iff in Hf.
  rewrite (processTurn_raise e Hf). cbn [session memory].
  split; reflexivity.
Qed.

(** C4. On a successful turn (retrieval, binding and generation all
    return) the answer of the turn is the generated answer, and the
    memory receives exactly one new exchange, placed last: the user
    turn carrying the utterance as given and the assistant turn
    carrying the returned answer; before it stand the most recent
    exchanges the window still has room for. *)
Theorem successful_turn_appends_exchange
    (docs : list Document) (bound ans : string) :
  retriever qa utterance = Ok docs ->
  bound_prompt (chain_for qa input_type next) docs (memory s) utterance
  = Ok bound ->
  llm qa bound = Ok ans ->
  Memory.bounded (memory s) ->
  0 < Memory.k (memory s) ->
  answer (processTurn qa input_type utterance s next) = ans /\
  memory (session (processTurn qa input_type utterance s next))
  = Memory.append (memory s)
      (mkTurn user utterance)
      (mkTurn assistant
         (answer (processTurn qa input_type utterance s next))) /\
  Memory.exchanges
    (memory (session (processTurn qa input_type utterance s next)))
  = last_n (Memory.k (memory s) - 1) (Memory.exchanges (memory s))
    ++ [ (mkTurn user utterance,
          mkTurn assistant
            (answer (processTurn qa input_type utterance s next))) ].
Proof.
  intros Hr Hb Hl Hbd Hk.
  assert (Hi : invoke (chain_for qa input_type next) (memory s) utterance
               = Ok (ans, Memory.append (memory s) (mkTurn user utterance)
                            (mkTurn assistant ans))).
  { apply invoke_ok with docs bound; assumption. }
  rewrite (processTurn_ok _ _ Hi). cbn [answer session memory].
  split; [reflexivity |]. split; [reflexivity |].
  rewrite append_window by assumption. now apply last_n_snoc.
Qed.

(** C7, amended. On a failing turn the answer is the single fixed
    apology whatever the error, and the apology is what the transcript
    keeps; the text of the error is put on the page, in an error box
    next to the answer. *)
Theorem failed_turn_shows_error (e : Exception) :
  collaborator_fails (chain_for qa input_type next) (memory s) utterance e ->
  answer (processTurn qa input_type utterance s next) = apology /\
  messages (session (processTurn qa input_type utterance s next))
  = messages s
    ++ [mkMessage "user" utterance; mkMessage "assistant" apology] /\
  shown (processTurn qa input_type utterance s next)
  = [ chat_message "user" utterance;
      st_error ("Error generating response: " ++ str e)%string;
      chat_message "assistant" apology ] /\
  shows_text (shown (processTurn qa input_type utterance s next)) (str e).
Proof.
  intros Hf. apply invoke_raise_iff in Hf.
  rewrite (processTurn_raise e Hf). cbn [answer session messages shown].
  split; [reflexivity |]. split; [now rewrite <- app_assoc |].
  split; [reflexivity |].
  exists (st_error ("Error generating response: " ++ str e)%string),
    "Error generating response: ", EmptyString.
  split; [right; left; reflexivity |].
  cbn [body]. f_equal.
  induction (str e) as [| c t IH]; cbn; [reflexivity | now rewrite <- IH].
Qed.

End OneTurn.

(** The answer of a turn whose retrieval returned: what the model makes
    of the prompt bound from the template of the turn's input type, or
    the apology if the model fails. *)
Lemma processTurn_answer_from_prompt (qa : ConversationalRetrievalChain)
    (it u : string) (s : SessionState) (n : nat)
    (docs : list Document) (p : string) :
  retriever qa u = Ok docs ->
  bound_prompt (chain_for qa it n) docs (memory s) u = Ok p ->
  answer (processTurn qa it u s n)
  = match llm qa p with
    | Ok a => a
    | Raise _ => apology
    end.
Proof.
  intros Hr Hb. destruct (llm qa p) as [a | e] eqn:Hl.
  - rewrite (processTurn_ok qa it u s n a _
               (invoke_ok (chain_for qa it n) (memory s) u docs p a
                  Hr Hb Hl)).
    reflexivity.
  - assert (Hi : invoke (chain_for qa it n) (memory s) u = Raise e).
    { apply invoke_raise_iff. now apply generation_fails with docs p. }
    now rewrite (processTurn_raise qa it u s n e Hi).
Qed.

(** Binding the selected template with the three values of a turn never
    fails, and the two template texts give different prompts. *)
Lemma bound_prompts_differ (qa : ConversationalRetrievalChain)
    (docs : list Document) (m : Memory.t) (u : string) (n n' : nat) :
  exists pq ps : string,
    bound_prompt (chain_for qa "Ask a legal question" n) docs m u = Ok pq /\
    bound_prompt (chain_for qa "Describe a scenario" n') docs m u = Ok ps /\
    ps <> pq.
Proof.
  unfold bound_prompt, chain_for, set_prompt, format.
  cbn [prompt chat_history_str].
  generalize (combine_documents docs) as c.
  generalize (chat_history_str qa (Memory.history m)) as h.
  intros h c.
  eexists. eexists. split; [| split].
  - vm_compute. reflexivity.
  - vm_compute. reflexivity.
  - discriminate.
Qed.

(** C5. The template text depends on the mode alone, and the mode changes
    what the turn generates from.  For the same chain, session and
    utterance, with the retrieval returning the same documents, binding
    succeeds under both modes, the prompt bound under the scenario mode
    differs from the one bound under the question mode, and each turn
    hands its own bound prompt to the model: the answer of the turn is
    what the model returns for that prompt (the apology if the model
    fails on it).  So a model that echoes its prompt gives different
    answers under the two modes. *)
Theorem mode_changes_bound_prompt (qa : ConversationalRetrievalChain)
    (docs : list Document) (s : SessionState) (utterance : string)
    (n n' : nat) :
  retriever qa utterance = Ok docs ->
  (forall mode : Mode,
      template (fst (selectTemplate (input_type_of mode) n))
      = template (fst (selectTemplate (input_type_of mode) n'))) /\
  exists pq ps : string,
    bound_prompt (chain_for qa (input_type_of QuestionMode) n)
      docs (memory s) utterance = Ok pq /\
    bound_prompt (chain_for qa (input_type_of ScenarioMode) n')
      docs (memory s) utterance = Ok ps /\
    ps <> pq /\
    answer (processTurn qa (input_type_of QuestionMode) utterance s n)
    = match llm qa pq with Ok a => a | Raise _ => apology end /\
    answer (processTurn qa (input_type_of ScenarioMode) utterance s n')
    = match llm qa ps with Ok a => a | Raise _ => apology end /\
    ((forall bound : string, llm qa bound = Ok bound) ->
     answer (processTurn qa (input_type_of ScenarioMode) utterance s n')
     <> answer (processTurn qa (input_type_of QuestionMode) utterance s n)).
Proof.
  intros Hr. split.
  - intros mode. apply selectTemplate_contents.
  - destruct (bound_prompts_differ qa docs (memory s) utterance n n')
      as [pq [ps [Hq [Hs Hne]]]].
    exists pq, ps. cbn [input_type_of].
    pose proof (processTurn_answer_from_prompt qa "Ask a legal question"
                  utterance s n docs pq Hr Hq) as Haq.
    pose proof (processTurn_answer_from_prompt qa "Describe a scenario"
                  utterance s n' docs ps Hr Hs) as Has.
    repeat (split; [assumption |]).
    intros Hecho. rewrite Haq, Has, !Hecho. exact Hne.
Qed.

(** C3, as stated, fails: the kind of the error is not made available
    anywhere.  A retrieval failure and a generation timeout that carry
    the same text leave the very same result of the turn: same answer,
    same session, same page. *)
Lemma error_kind_reaches_no_output :
  collaborator_fails
    (chain_for Sample.qa_retrieval_boom "Ask a legal question" 0)
    (memory Stub.session) "What is theft?" Sample.boom_retrieval /\
  collaborator_fails
    (chain_for Sample.qa_generation_boom "Ask a legal question" 0)
    (memory Stub.session) "What is theft?" Sample.boom_generation /\
  kind Sample.boom_retrieval <> kind Sample.boom_generation /\
  processTurn Sample.qa_retrieval_boom "Ask a legal question"
    "What is theft?" Stub.session 0
  = processTurn Sample.qa_generation_boom "Ask a legal question"
      "What is theft?" Stub.session 0.
Proof.
  split; [apply retrieval_fails; reflexivity |].
  split; [eapply generation_fails; reflexivity |].
  split; [discriminate | reflexivity].
Qed.

(** C3, amended. The turn is a total function with no error case:
    either the chain returned and its answer is the turn's answer, or a
    collaborator call failed.  On a failure of any kind the answer is
    the single fixed apology and the raw error is not propagated; the
    whole result of the turn is fixed by the text of the error, which is
    put in an error box on the page.  The kind of the error reaches no
    output and nothing is logged: two failures with the same text give
    the same result. *)
Theorem failed_turn_answers_apology (qa : ConversationalRetrievalChain)
    (input_type utterance : string) (s : SessionState) (next : nat) :
  (forall e : Exception,
      collaborator_fails (chain_for qa input_type next) (memory s)
        utterance e ->
      processTurn qa input_type utterance s next
      = {| answer := apology;
           session :=
             {| page := page s;
                messages := messages s
                            ++ [ mkMessage "user" utterance;
                                 mkMessage "assistant" apology ];
                memory := memory s |};
           shown := [ chat_message "user" utterance;
                      st_error
                        ("Error generating response: " ++ str e)%string;
                      chat_message "assistant" apology ];
           next_oid := S next |}) /\
  (forall (qa' : ConversationalRetrievalChain) (e e' : Exception),
      collaborator_fails (chain_for qa input_type next) (memory s)
        utterance e ->
      collaborator_fails (chain_for qa' input_type next) (memory s)
        utterance e' ->
      str e = str e' ->
      processTurn qa input_type utterance s next
      = processTurn qa' input_type utterance s next) /\
  ((exists (ans : string) (m' : Memory.t),
       invoke (chain_for qa input_type next) (memory s) utterance
       = Ok (ans, m') /\
       answer (processTurn qa input_type utterance s next) = ans) \/
   (exists e : Exception,
       collaborator_fails (chain_for qa input_type next) (memory s)
         utterance e /\
       answer (processTurn qa input_type utterance s next) = apology)).
Proof.
  assert (Hraise : forall (c : ConversationalRetrievalChain) (e : Exception),
             collaborator_fails (chain_for c input_type next) (memory s)
               utterance e ->
             processTurn c input_type utterance s next
             = {| answer := apology;
                  session :=
                    {| page := page s;
                       messages := messages s
                                   ++ [ mkMessage "user" utterance;
                                        mkMessage "assistant" apology ];
                       memory := memory s |};
                  shown := [ chat_message "user" utterance;
                             st_error
                               ("Error generating response: " ++ str e)%string;
                             chat_message "assistant" apology ];
                  next_oid := S next |}).
  { intros c e Hf. apply invoke_raise_iff in Hf.
    rewrite (processTurn_raise c input_type utterance s next e Hf).
    rewrite (proj1 (selectTemplate_next input_type next)), <- app_assoc.
    reflexivity. }
  split; [| split].
  - intros e Hf. now apply Hraise.
  - intros qa' e e' Hf Hf' Hstr.
    rewrite (Hraise qa e Hf), (Hraise qa' e' Hf'), Hstr. reflexivity.
  - destruct (invoke (chain_for qa input_type next) (memory s) utterance)
      as [[ans m'] | e] eqn:Hi.
    + left. exists ans, m'. split; [reflexivity |].
      now rewrite (processTurn_ok qa input_type utterance s next ans m' Hi).
    + right. exists e. split; [now apply invoke_raise_iff |].
      now rewrite (processTurn_raise qa input_type utterance s next e Hi).
Qed.

(** * The chat page *)

Lemma eqb_nonempty (u : string) :
  u <> EmptyString -> (u =? EmptyString)%string = false.
Proof.
  intros Hu. destruct (String.eqb_spec u EmptyString); [contradiction | reflexivity].
Qed.

Lemma processTurn_messages (qa : ConversationalRetrievalChain)
    (it u : string) (s : SessionState) (n : nat) :
  exists ans : string,
    messages (session (processTurn qa it u s n))
    = messages s ++ [mkMessage "user" u; mkMessage "assistant" ans].
Proof.
  destruct (invoke (chain_for qa it n) (memory s) u) as [[ans m'] | e] eqn:Hi.
  - exists ans. rewrite (processTurn_ok _ _ _ _ _ _ _ Hi).
    cbn [session messages]. now rewrite <- app_assoc.
  - exists apology. rewrite (processTurn_raise _ _ _ _ _ _ Hi).
    cbn [session messages]. now rewrite <- app_assoc.
Qed.

(** Turns only ever add to the transcript. *)
Lemma run_turns_extends (later : list LaterTurn) (s : SessionState) (n : nat) :
  exists rest : list Message,
    messages (fst (run_turns later s n)) = messages s ++ rest.
Proof.
  revert s n. induction later as [| t later IH]; intros s n.
  - exists []. cbn. now rewrite app_nil_r.
  - cbn [run_turns].
    destruct (IH (session (processTurn (lt_chain t) (lt_input_type t)
                             (lt_utterance t) s n))
                 (next_oid (processTurn (lt_chain t) (lt_input_type t)
                              (lt_utterance t) s n))) as [rest Hrest].
    destruct (processTurn_messages (lt_chain t) (lt_input_type t)
                (lt_utterance t) s n) as [ans Hm].
    rewrite Hrest, Hm, <- app_assoc. eexists. reflexivity.
Qed.

(** A script run that gets past the back button and the initialisation
    first puts the whole transcript on the page. *)
Lemma render_shows_transcript (env : Services) (w : Widgets)
    (s : SessionState) (n : nat)
    (qa : ConversationalRetrievalChain) (n1 : nat) :
  back_home w = false ->
  _initialize_llm_components env n = inl (qa, n1) ->
  exists rest : list Element,
    rendered (render_chat_page env w s n)
    = display_messages (messages s) ++ rest.
Proof.
  intros Hb Hinit. unfold render_chat_page. rewrite Hb, Hinit.
  destruct (match chat_input w with
            | Some u =>
                if (u =? EmptyString)%string then (s, [], None, n1)
                else (session (processTurn qa (input_type w) u s n1),
                      shown (processTurn qa (input_type w) u s n1),
                      Some (answer (processTurn qa (input_type w) u s n1)),
                      next_oid (processTurn qa (input_type w) u s n1))
            | None => (s, [], None, n1)
            end) as [[[s1 out1] ans] n2].
  destruct (clear_chat w); [| destruct (new_question w)];
    cbn [rendered]; eexists; reflexivity.
Qed.

(** C6, as stated, fails twice.  Where the index cannot be loaded, the
    script stops in [_initialize_llm_components] and the submitted
    utterance gets no answer, not even the fallback.  Where the index is
    loaded and its query fails, the kind of the error is not reported:
    the run of the page is the very same as the run in which the model
    fails with an error of another kind and the same text. *)
Lemma index_load_failure_gives_no_answer :
  load_local Stub.env_no_index = Raise Stub.index_down /\
  answered (render_chat_page Stub.env_no_index
              (Stub.ask "Ask a legal question" "What is theft?")
              Stub.session 0)
  <> Some apology /\
  similarity_search Sample.db_boom "What is theft?" 4
  = Raise Sample.boom_retrieval /\
  kind Sample.boom_retrieval = RetrievalUnavailable /\
  Sample.model_boom "any prompt" = Raise Sample.boom_generation /\
  kind Sample.boom_generation = GenerationTimeout /\
  render_chat_page Sample.env_retrieval_boom
    (Stub.ask "Ask a legal question" "What is theft?") Stub.session 0
  = render_chat_page Sample.env_generation_boom
      (Stub.ask "Ask a legal question" "What is theft?") Stub.session 0.
Proof.
  split; [reflexivity |]. split; [vm_compute; discriminate |].
  repeat (split; [reflexivity |]). reflexivity.
Qed.

(** C6, amended. A script run of the chat page (back button not pressed):
    if the index cannot be loaded, the run stops with the error box of
    the loader, no turn is processed and no answer, fallback or other, is
    produced, and the session (memory and transcript) is as before; if
    the index is loaded and the model client built but the query of the
    submitted utterance fails, the answer is the fixed fallback, the
    memory is unchanged, and the page is the transcript followed by the
    utterance, the error box of the turn and the fallback answer; the
    error box carries the text of the error and nothing of its kind. *)
Theorem retrieval_failure_outcomes (env : Services) (w : Widgets)
    (s : SessionState) (next : nat) (e : Exception) :
  back_home w = false ->
  (load_local env = Raise e ->
   control (render_chat_page env w s next) = Stopped /\
   answered (render_chat_page env w s next) = None /\
   state (render_chat_page env w s next) = s /\
   rendered (render_chat_page env w s next)
   = [st_error ("Could not load vector store: " ++ str e)%string]) /\
  (forall (db : VectorStore) (model : LLM) (u : string),
      load_local env = Ok db ->
      ChatGroq env = Ok model ->
      chat_input w = Some u ->
      u <> EmptyString ->
      clear_chat w = false ->
      similarity_search db u 4 = Raise e ->
      answered (render_chat_page env w s next) = Some apology /\
      memory (state (render_chat_page env w s next)) = memory s /\
      rendered (render_chat_page env w s next)
      = display_messages (messages s)
        ++ [ chat_message "user" u;
             st_error ("Error generating response: " ++ str e)%string;
             chat_message "assistant" apology ]).
Proof.
  intros Hb. split.
  - intros Hload. unfold render_chat_page, _initialize_llm_components.
    rewrite Hb, Hload. cbn. repeat split; reflexivity.
  - intros db model u Hload Hllm Hin Hu Hclear Hq.
    unfold render_chat_page, _initialize_llm_components.
    rewrite Hb, Hload, Hllm. cbn [_get_prompt_template].
    rewrite Hin, (eqb_nonempty u Hu), Hclear.
    set (qa := {| prompt := _; retriever := as_retriever db 4;
                  llm := model; chat_history_str := get_chat_history env |}).
    assert (Hi : invoke (chain_for qa (input_type w) (S next)) (memory s) u
                 = Raise e).
    { apply invoke_raise_iff, retrieval_fails. exact Hq. }
    rewrite (processTurn_raise _ _ _ _ _ _ Hi).
    cbn [answer session shown memory next_oid].
    destruct (new_question w); cbn [answered state memory rendered];
      repeat split; reflexivity.
Qed.

(** C7, as stated, fails: on a turn whose generation times out the page
    shows the text of the error in its error box. *)
Lemma timeout_text_is_on_the_page :
  collaborator_fails
    (chain_for Stub.qa_timeout "Ask a legal question" 0)
    (memory Stub.session) "What is theft?" Stub.timeout /\
  shows_text
    (shown (processTurn Stub.qa_timeout "Ask a legal question"
              "What is theft?" Stub.session 0))
    "GenerationTimeout: no reply within the deadline".
Proof.
  split.
  - eapply generation_fails; reflexivity.
  - exists (st_error
      "Error generating response: GenerationTimeout: no reply within the deadline"),
      "Error generating response: ", EmptyString.
    split; [| reflexivity].
    vm_compute. right. left. reflexivity.
Qed.

(** C10. On a failed turn the memory is left as it was, but the
    transcript is not: it gains the user's utterance and then the fixed
    apology as an assistant message.  The two entries stay in the
    transcript through any later turns, and every later script run of the
    chat page that gets past its initialisation renders them again. *)
Theorem failed_exchange_stays_in_transcript
    (qa : ConversationalRetrievalChain) (it u : string)
    (s : SessionState) (next : nat) (e : Exception) :
  collaborator_fails (chain_for qa it next) (memory s) u e ->
  messages (session (processTurn qa it u s next))
  = messages s ++ [mkMessage "user" u; mkMessage "assistant" apology] /\
  memory (session (processTurn qa it u s next)) = memory s /\
  (forall (later : list LaterTurn) (n : nat),
      exists rest : list Message,
        messages (fst (run_turns later
                         (session (processTurn qa it u s next)) n))
        = (messages s
           ++ [mkMessage "user" u; mkMessage "assistant" apology])
          ++ rest) /\
  (forall (env : Services) (w : Widgets) (n : nat)
          (qa' : ConversationalRetrievalChain) (n' : nat),
      back_home w = false ->
      _initialize_llm_components env n = inl (qa', n') ->
      exists rest : list Element,
        rendered (render_chat_page env w
                    (session (processTurn qa it u s next)) n)
        = (display_messages (messages s)
           ++ [chat_message "user" u; chat_message "assistant" apology])
          ++ rest).
Proof.
  intros Hf. apply invoke_raise_iff in Hf.
  assert (Hm : messages (session (processTurn qa it u s next))
               = messages s
                 ++ [mkMessage "user" u; mkMessage "assistant" apology]).
  { rewrite (processTurn_raise _ _ _ _ _ _ Hf).
    cbn [session messages]. now rewrite <- app_assoc. }
  split; [exact Hm |]. split; [| split].
  - now rewrite (processTurn_raise _ _ _ _ _ _ Hf).
  - intros later n. rewrite <- Hm. apply run_turns_extends.
  - intros env w n qa' n' Hb Hinit.
    destruct (render_shows_transcript env w
                (session (processTurn qa it u s next)) n qa' n' Hb Hinit)
      as [rest Hrest].
    exists rest. rewrite Hrest, Hm.
    unfold display_messages. now rewrite map_app.
Qed.

(** * The theorems on concrete inputs *)

Lemma failed_turn_leaves_memory_witness :
  collaborator_fails
    (chain_for Stub.qa_timeout "Describe a scenario" 0)
    (memory Stub.session) "A struck B while defending himself."
    Stub.timeout /\
  memory (session (processTurn Stub.qa_timeout "Describe a scenario"
                     "A struck B while defending himself." Stub.session 0))
  = memory Stub.session.
Proof.
  assert (Hf : collaborator_fails
                 (chain_for Stub.qa_timeout "Describe a scenario" 0)
                 (memory Stub.session) "A struck B while defending himself."
                 Stub.timeout)
    by (eapply generation_fails; reflexivity).
  split; [exact Hf |].
  exact (proj1 (failed_turn_leaves_memory Stub.qa_timeout
                  "Describe a scenario" "A struck B while defending himself."
                  Stub.session 0 Stub.timeout Hf)).
Defined.

Lemma failed_turn_answers_apology_witness :
  collaborator_fails
    (chain_for Stub.qa_query_down "Ask a legal question" 0)
    (memory Stub.session) "What is theft?" Stub.index_down /\
  answer (processTurn Stub.qa_query_down "Ask a legal question"
            "What is theft?" Stub.session 0) = apology.
Proof.
  assert (Hf : collaborator_fails
                 (chain_for Stub.qa_query_down "Ask a legal question" 0)
                 (memory Stub.session) "What is theft?" Stub.index_down)
    by (apply retrieval_fails; reflexivity).
  split; [exact Hf |].
  rewrite (proj1 (failed_turn_answers_apology Stub.qa_query_down
                    "Ask a legal question" "What is theft?"
                    Stub.session 0) Stub.index_down Hf).
  reflexivity.
Defined.

Lemma successful_turn_appends_exchange_witness :
  answer (processTurn Stub.qa "Ask a legal question" "And robbery?"
            Stub.session 0) = "Answer A" /\
  Memory.exchanges
    (memory (session (processTurn Stub.qa "Ask a legal question"
                        "And robbery?" Stub.session 0)))
  = [ Stub.E1;
      (mkTurn user "And robbery?", mkTurn assistant "Answer A") ].
Proof.
  pose (bound := match bound_prompt
                         (chain_for Stub.qa "Ask a legal question" 0)
                         Stub.documents (memory Stub.session) "And robbery?"
                 with
                 | Ok b => b
                 | Raise _ => EmptyString
                 end).
  assert (Hr : retriever Stub.qa "And robbery?" = Ok Stub.documents)
    by reflexivity.
  assert (Hb : bound_prompt (chain_for Stub.qa "Ask a legal question" 0)
                 Stub.documents (memory Stub.session) "And robbery?"
               = Ok bound) by (vm_compute; reflexivity).
  assert (Hl : llm Stub.qa bound = Ok "Answer A") by reflexivity.
  assert (Hbd : Memory.bounded (memory Stub.session))
    by (unfold Memory.bounded; simpl; lia).
  assert (Hk : 0 < Memory.k (memory Stub.session)) by (simpl; lia).
  pose proof (successful_turn_appends_exchange Stub.qa
                "Ask a legal question" "And robbery?" Stub.session 0
                Stub.documents bound "Answer A" Hr Hb Hl Hbd Hk)
    as [Ha [_ He]].
  split; [exact Ha |].
  rewrite He, Ha. reflexivity.
Defined.

Lemma retrieval_failure_outcomes_witness :
  (control (render_chat_page Stub.env_no_index
              (Stub.ask "Ask a legal question" "What is theft?")
              Stub.session 0) = Stopped /\
   answered (render_chat_page Stub.env_no_index
               (Stub.ask "Ask a legal question" "What is theft?")
               Stub.session 0) = None) /\
  (answered (render_chat_page Stub.env_query_down
               (Stub.ask "Ask a legal question" "What is theft?")
               Stub.session 0) = Some apology /\
   memory (state (render_chat_page Stub.env_query_down
                    (Stub.ask "Ask a legal question" "What is theft?")
                    Stub.session 0)) = memory Stub.session).
Proof.
  split.
  - destruct (proj1 (retrieval_failure_outcomes Stub.env_no_index
                       (Stub.ask "Ask a legal question" "What is theft?")
                       Stub.session 0 Stub.index_down eq_refl) eq_refl)
      as [Hc [Ha _]].
    split; [exact Hc | exact Ha].
  - assert (Hu : "What is theft?" <> EmptyString) by discriminate.
    destruct (proj2 (retrieval_failure_outcomes Stub.env_query_down
                       (Stub.ask "Ask a legal question" "What is theft?")
                       Stub.session 0 Stub.index_down eq_refl)
                Stub.db_down Stub.model "What is theft?"
                eq_refl eq_refl eq_refl Hu eq_refl eq_refl)
      as [Ha [Hm _]].
    split; [exact Ha | exact Hm].
Defined.

Lemma failed_turn_shows_error_witness :
  collaborator_fails
    (chain_for Stub.qa_timeout "Ask a legal question" 0)
    (memory Stub.session) "What is theft?" Stub.timeout /\
  shown (processTurn Stub.qa_timeout "Ask a legal question"
           "What is theft?" Stub.session 0)
  = [ chat_message "user" "What is theft?";
      st_error
        "Error generating response: GenerationTimeout: no reply within the deadline";
      chat_message "assistant" apology ].
Proof.
  assert (Hf : collaborator_fails
                 (chain_for Stub.qa_timeout "Ask a legal question" 0)
                 (memory Stub.session) "What is theft?" Stub.timeout)
    by (eapply generation_fails; reflexivity).
  split; [exact Hf |].
  exact (proj1 (proj2 (proj2
    (failed_turn_shows_error Stub.qa_timeout "Ask a legal question"
       "What is theft?" Stub.session 0 Stub.timeout Hf)))).
Defined.

Lemma failed_exchange_stays_in_transcript_witness :
  collaborator_fails
    (chain_for Stub.qa_query_down "Ask a legal question" 0)
    (memory Stub.session) "And robbery?" Stub.index_down /\
  messages (session (processTurn Stub.qa_query_down "Ask a legal question"
                       "And robbery?" Stub.session 0))
  = [ mkMessage "user" "What is theft?";
      mkMessage "assistant" "See section 378 IPC.";
      mkMessage "user" "And robbery?";
      mkMessage "assistant" apology ].
Proof.
  assert (Hf : collaborator_fails
                 (chain_for Stub.qa_query_down "Ask a legal question" 0)
                 (memory Stub.session) "And robbery?" Stub.index_down)
    by (apply retrieval_fails; reflexivity).
  split; [exact Hf |].
  exact (proj1 (failed_exchange_stays_in_transcript Stub.qa_query_down
                  "Ask a legal question" "And robbery?" Stub.session 0
                  Stub.index_down Hf)).
Defined.

(** The first turn of a session: empty memory, question mode, two
    documents retrieved, the model answers. *)
Example first_turn_of_a_session :
  let s0 := {| page := "chat"; messages := []; memory := Memory.new 2 |} in
  let o := render_chat_page Stub.env
             (Stub.ask "Ask a legal question" "What is theft?") s0 0 in
  answered o = Some "Answer A" /\
  control o = Finished /\
  Memory.history (memory (state o))
  = [mkTurn user "What is theft?"; mkTurn assistant "Answer A"] /\
  rendered o = [ chat_message "user" "What is theft?";
                 chat_message "assistant" "Answer A" ].
Proof.
  vm_compute. repeat split; reflexivity.
Qed.

(** * Configuration *)

Lemma missing_keys_nil (google groq : option string) :
  missing_keys google groq = [] <->
  is_set google = true /\ is_set groq = true.
Proof.
  unfold missing_keys.
  destruct (is_set google), (is_set groq); cbn; split;
    try discriminate; try (intros [? ?]; discriminate); auto.
Qed.

Lemma config_init_missing (google groq : option string) :
  missing_keys google groq <> [] ->
  LAWONTIPConfig_init google groq
  = inr (st_error (missing_keys_text (missing_keys google groq))).
Proof.
  unfold LAWONTIPConfig_init.
  destruct (missing_keys google groq); [congruence | reflexivity].
Qed.

(** X1. The configuration is built exactly when both API keys are set to
    a non-empty value (an empty value counts as missing); otherwise the
    error box lists the missing keys, and a key is listed exactly when it
    is missing. *)
Theorem config_needs_both_keys (google groq : option string) :
  ((exists cfg, LAWONTIPConfig_init google groq = inl cfg) <->
   is_set google = true /\ is_set groq = true) /\
  (forall key : string,
      In key (missing_keys google groq) <->
      (key = "GOOGLE_API_KEY" /\ is_set google = false) \/
      (key = "GROQ_API_KEY" /\ is_set groq = false)) /\
  ((is_set google = false \/ is_set groq = false) ->
   LAWONTIPConfig_init google groq
   = inr (st_error (missing_keys_text (missing_keys google groq)))).
Proof.
  split; [| split].
  - split.
    + intros [cfg Hc]. apply missing_keys_nil.
      unfold LAWONTIPConfig_init in Hc.
      destruct (missing_keys google groq); [reflexivity | discriminate].
    + intros H. apply missing_keys_nil in H.
      unfold LAWONTIPConfig_init. rewrite H. eexists. reflexivity.
  - intros key. unfold missing_keys.
    destruct (is_set google), (is_set groq); cbn; intuition congruence.
  - intros H. apply config_init_missing. intros Hnil.
    apply missing_keys_nil in Hnil. destruct Hnil as [Hg Hq].
    destruct H; congruence.
Qed.

(** X2. With a key missing the script stops in the configuration, before
    the session state is initialised: the session dictionary is left as
    it was found (empty on a first run), the page shows only the error
    box of the missing keys, and no page is rendered whatever the widgets
    say. *)
Theorem missing_key_stops_script (r : RunInput) (d : SessionDict)
    (next : nat) :
  is_set (os_google r) = false \/ is_set (os_groq r) = false ->
  session_after (script r d next) = d /\
  ended (script r d next) = Stopped /\
  output (script r d next)
  = [st_error (missing_keys_text
                 (missing_keys (os_google r) (os_groq r)))] /\
  oid_after (script r d next) = next.
Proof.
  intros H. unfold script.
  rewrite config_init_missing.
  - repeat split; reflexivity.
  - intros Hnil. apply missing_keys_nil in Hnil. destruct Hnil.
    destruct H; congruence.
Qed.

(** * Script runs of the chat page *)

Lemma initialize_to_dict (s : SessionState) :
  _initialize_session_state (to_dict s) = s.
Proof. destruct s. reflexivity. Qed.

(** The three ways [_initialize_llm_components] can end. *)
Lemma initialize_llm_cases (env : Services) (n : nat) :
  (exists e, load_local env = Raise e /\
     _initialize_llm_components env n
     = inr (st_error ("Could not load vector store: " ++ str e)%string)) \/
  (exists db e, load_local env = Ok db /\ ChatGroq env = Raise e /\
     _initialize_llm_components env n
     = inr (st_error
              ("Could not initialize LLM components: " ++ str e)%string)) \/
  (exists db model, load_local env = Ok db /\ ChatGroq env = Ok model /\
     _initialize_llm_components env n
     = inl ({| prompt := fst (_get_prompt_template n);
               retriever := as_retriever db 4;
               llm := model;
               chat_history_str := get_chat_history env |}, S n)).
Proof.
  unfold _initialize_llm_components.
  destruct (load_local env) as [db | e].
  - destruct (ChatGroq env) as [model | e].
    + right. right. exists db, model. repeat split; reflexivity.
    + right. left. exists db, e. repeat split; reflexivity.
  - left. exists e. split; reflexivity.
Qed.

(** A run of the chat page that gets past the back button and the
    initialisation. *)
Lemma render_chat_page_ok (env : Services) (w : Widgets) (s : SessionState)
    (n : nat) (qa : ConversationalRetrievalChain) (n1 : nat) :
  back_home w = false ->
  _initialize_llm_components env n = inl (qa, n1) ->
  render_chat_page env w s n
  = match submitted w with
    | Some u =>
        let r := processTurn qa (input_type w) u s n1 in
        {| state := if clear_chat w then reset_conversation (session r)
                    else session r;
           rendered := display_messages (messages s) ++ shown r;
           control := if clear_chat w || new_question w
                      then Rerun else Finished;
           answered := Some (answer r);
           free_oid := next_oid r |}
    | None =>
        {| state := if clear_chat w then reset_conversation s else s;
           rendered := display_messages (messages s) ++ [];
           control := if clear_chat w || new_question w
                      then Rerun else Finished;
           answered := None;
           free_oid := n1 |}
    end.
Proof.
  intros Hb Hinit. unfold render_chat_page, submitted. rewrite Hb, Hinit.
  destruct (chat_input w) as [u |];
    [destruct (u =? EmptyString)%string |];
    destruct (clear_chat w), (new_question w); reflexivity.
Qed.

Lemma render_chat_page_stopped (env : Services) (w : Widgets)
    (s : SessionState) (n : nat) (box : Element) :
  back_home w = false ->
  _initialize_llm_components env n = inr box ->
  render_chat_page env w s n
  = {| state := s; rendered := [box]; control := Stopped;
       answered := None; free_oid := n |}.
Proof.
  intros Hb Hinit. unfold render_chat_page. now rewrite Hb, Hinit.
Qed.

Lemma render_chat_page_not_stopped (env : Services) (w : Widgets)
    (s : SessionState) (n : nat) (qa : ConversationalRetrievalChain)
    (n1 : nat) :
  back_home w = false ->
  _initialize_llm_components env n = inl (qa, n1) ->
  control (render_chat_page env w s n) <> Stopped.
Proof.
  intros Hb Hinit. rewrite (render_chat_page_ok _ _ _ _ _ _ Hb Hinit).
  destruct (submitted w); cbn [control];
    destruct (clear_chat w || new_question w); discriminate.
Qed.

(** X3. A run of the chat page (back button not pressed) is halted by
    [st.stop()] exactly when loading the index or building the model
    client fails; a failing turn never halts it.  A halted run shows one
    error box and nothing else, not even the transcript, processes no
    utterance and leaves the session state as it was. *)
Theorem chat_page_stops_iff_init_fails (env : Services) (w : Widgets)
    (s : SessionState) (n : nat) :
  back_home w = false ->
  (control (render_chat_page env w s n) = Stopped <->
   (exists e, load_local env = Raise e) \/
   (exists e, ChatGroq env = Raise e)) /\
  (control (render_chat_page env w s n) = Stopped ->
   state (render_chat_page env w s n) = s /\
   answered (render_chat_page env w s n) = None /\
   free_oid (render_chat_page env w s n) = n /\
   exists text, rendered (render_chat_page env w s n) = [st_error text]).
Proof.
  intros Hb.
  destruct (initialize_llm_cases env n)
    as [[e [Hl Hi]] | [[db [e [Hl [Hg Hi]]]] | [db [model [Hl [Hg Hi]]]]]].
  - rewrite (render_chat_page_stopped _ _ _ _ _ Hb Hi). cbn. split.
    + split; [intros _; left; now exists e | reflexivity].
    + intros _. repeat split. eexists. reflexivity.
  - rewrite (render_chat_page_stopped _ _ _ _ _ Hb Hi). cbn. split.
    + split; [intros _; right; now exists e | reflexivity].
    + intros _. repeat split. eexists. reflexivity.
  - pose proof (render_chat_page_not_stopped _ _ s _ _ _ Hb Hi) as Hns.
    split.
    + split; [contradiction |].
      intros [[e He] | [e He]]; congruence.
    + contradiction.
Qed.

Lemma go_to_chat_after_landing (s : SessionState) :
  page s = "chat" -> go_to_page "chat" (go_to_page "landing" s) = s.
Proof.
  destruct s as [p m mem]. cbn. intros ->. reflexivity.
Qed.

(** X4. Leaving the chat page and coming back keeps the conversation:
    the back button only changes the page (it is handled before the
    initialisation and before the chat input, so it works with the
    services down and drops an utterance typed in the same run), and
    pressing the start button on the landing page then gives back the
    very session state the chat page was left with. *)
Theorem back_and_forth_keeps_session (r r' : RunInput) (s : SessionState)
    (n n' : nat) :
  page s = "chat" ->
  back_home (chat_widgets r) = true ->
  start_chat r' = true ->
  state (run r s n) = go_to_page "landing" s /\
  rendered (run r s n) = [] /\
  answered (run r s n) = None /\
  control (run r s n) = Rerun /\
  state (run r' (state (run r s n)) n') = s.
Proof.
  intros Hp Hb Hs.
  assert (Hrun : run r s n
                 = {| state := go_to_page "landing" s; rendered := [];
                      control := Rerun; answered := None;
                      free_oid := n |}).
  { unfold run. rewrite Hp. cbn [String.eqb Ascii.eqb Bool.eqb].
    unfold render_chat_page. now rewrite Hb. }
  rewrite Hrun. cbn [state rendered answered control].
  repeat (split; [reflexivity |]).
  unfold run. cbn [go_to_page page String.eqb Ascii.eqb Bool.eqb].
  unfold render_landing_page. rewrite Hs. cbn [state].
  now apply go_to_chat_after_landing.
Qed.

(** X5. A script run in which nothing is pressed and nothing is typed
    leaves an initialised session dictionary exactly as it was, on every
    page, whatever the keys and the collaborators do; the New Question
    button, which only reruns the script, is such a run too. *)
Theorem idle_run_keeps_session (r : RunInput) (s : SessionState) (n : nat) :
  start_chat r = false ->
  back_home (chat_widgets r) = false ->
  submitted (chat_widgets r) = None ->
  clear_chat (chat_widgets r) = false ->
  session_after (script r (to_dict s) n) = to_dict s.
Proof.
  intros Hs Hb Hu Hc. unfold script.
  destruct (LAWONTIPConfig_init (os_google r) (os_groq r));
    [| reflexivity].
  cbn [session_after]. rewrite initialize_to_dict. f_equal.
  unfold run.
  destruct (page s =? "landing")%string.
  - unfold render_landing_page. now rewrite Hs.
  - destruct (page s =? "chat")%string; [| reflexivity].
    destruct (_initialize_llm_components (services r) n)
      as [[qa n1] | box] eqn:Hi.
    + rewrite (render_chat_page_ok _ _ _ _ _ _ Hb Hi), Hu, Hc. reflexivity.
    + now rewrite (render_chat_page_stopped _ _ _ _ _ Hb Hi).
Qed.

Lemma processTurn_page_k (qa : ConversationalRetrievalChain)
    (it u : string) (s : SessionState) (n : nat) :
  page (session (processTurn qa it u s n)) = page s /\
  Memory.k (memory (session (processTurn qa it u s n)))
  = Memory.k (memory s).
Proof.
  destruct (invoke (chain_for qa it n) (memory s) u) as [[ans m'] | e] eqn:Hi.
  - rewrite (processTurn_ok _ _ _ _ _ _ _ Hi). cbn [session page memory].
    split; [reflexivity |].
    unfold invoke in Hi.
    destruct (retriever (chain_for qa it n) u); [| discriminate].
    cbn [bind] in Hi.
    destruct (bound_prompt (chain_for qa it n) a (memory s) u);
      [| discriminate].
    cbn [bind] in Hi.
    destruct (llm (chain_for qa it n) a0); [| discriminate].
    cbn [bind] in Hi. injection Hi as _ <-. reflexivity.
  - rewrite (processTurn_raise _ _ _ _ _ _ Hi). split; reflexivity.
Qed.

Lemma processTurn_shown (qa : ConversationalRetrievalChain)
    (it u : string) (s : SessionState) (n : nat) :
  messages (session (processTurn qa it u s n))
  = messages s
    ++ [ mkMessage "user" u;
         mkMessage "assistant" (answer (processTurn qa it u s n)) ] /\
  filter is_chat_message (shown (processTurn qa it u s n))
  = [ chat_message "user" u;
      chat_message "assistant" (answer (processTurn qa it u s n)) ].
Proof.
  destruct (invoke (chain_for qa it n) (memory s) u) as [[ans m'] | e] eqn:Hi.
  - rewrite (processTurn_ok _ _ _ _ _ _ _ Hi).
    cbn [session messages shown answer filter is_chat_message].
    now rewrite <- app_assoc.
  - rewrite (processTurn_raise _ _ _ _ _ _ Hi).
    cbn [session messages shown answer filter is_chat_message].
    now rewrite <- app_assoc.
Qed.

(** X6. Clear Chat wins over a turn of the same run: when the button is
    pressed, the run ends with an empty transcript and an empty memory
    (same page, same window size) and reruns, even if an utterance was
    submitted in that run; the utterance was still processed and its
    answer put on the page, but the exchange is not kept. *)
Theorem clear_chat_discards_turn (env : Services) (w : Widgets)
    (s : SessionState) (n : nat) (qa : ConversationalRetrievalChain)
    (n1 : nat) :
  back_home w = false ->
  _initialize_llm_components env n = inl (qa, n1) ->
  clear_chat w = true ->
  messages (state (render_chat_page env w s n)) = [] /\
  Memory.history (memory (state (render_chat_page env w s n))) = [] /\
  Memory.k (memory (state (render_chat_page env w s n)))
  = Memory.k (memory s) /\
  page (state (render_chat_page env w s n)) = page s /\
  control (render_chat_page env w s n) = Rerun /\
  (forall u : string,
      submitted w = Some u ->
      answered (render_chat_page env w s n)
      = Some (answer (processTurn qa (input_type w) u s n1)) /\
      In (chat_message "assistant"
            (answer (processTurn qa (input_type w) u s n1)))
         (rendered (render_chat_page env w s n))).
Proof.
  intros Hb Hi Hc.
  rewrite (render_chat_page_ok _ _ _ _ _ _ Hb Hi), Hc.
  destruct (submitted w) as [u |].
  - cbn [state rendered control answered reset_conversation messages memory
         page Memory.clear Memory.k orb].
    destruct (processTurn_page_k qa (input_type w) u s n1) as [Hp Hk].
    repeat (split; [first [reflexivity | assumption] |]).
    intros u' [= <-]. split; [reflexivity |].
    apply in_or_app. right.
    assert (Hin : In (chat_message "assistant"
                        (answer (processTurn qa (input_type w) u s n1)))
                     (filter is_chat_message
                        (shown (processTurn qa (input_type w) u s n1)))).
    { rewrite (proj2 (processTurn_shown qa (input_type w) u s n1)).
      right. left. reflexivity. }
    apply filter_In in Hin. tauto.
  - cbn. repeat (split; [reflexivity |]). intros u' [=].
Qed.

Lemma filter_display_messages (msgs : list Message) :
  filter is_chat_message (display_messages msgs) = display_messages msgs.
Proof.
  unfold display_messages.
  induction msgs as [| m msgs IH]; cbn; [reflexivity | now rewrite IH].
Qed.

(** X7. The next run repeats the chat messages of a run and nothing
    else: after a run of the chat page (initialised, Clear Chat not
    pressed), a following run in which no utterance is submitted renders
    exactly the chat messages the first run rendered, in the same order;
    the error box of a failed turn is not among them, it is shown in the
    run of the failure only. *)
Theorem next_run_repeats_chat_messages
    (env env' : Services) (w w' : Widgets) (s : SessionState) (n n' : nat)
    (qa qa' : ConversationalRetrievalChain) (n1 n1' : nat) :
  back_home w = false ->
  _initialize_llm_components env n = inl (qa, n1) ->
  clear_chat w = false ->
  back_home w' = false ->
  _initialize_llm_components env' n' = inl (qa', n1') ->
  submitted w' = None ->
  rendered (render_chat_page env' w' (state (render_chat_page env w s n)) n')
  = filter is_chat_message (rendered (render_chat_page env w s n)).
Proof.
  intros Hb Hi Hc Hb' Hi' Hu'.
  rewrite (render_chat_page_ok env' w' _ _ _ _ Hb' Hi'), Hu'.
  cbn [rendered]. rewrite app_nil_r.
  rewrite (render_chat_page_ok env w _ _ _ _ Hb Hi), Hc.
  destruct (submitted w) as [u |]; cbn [state rendered].
  - rewrite filter_app, filter_display_messages.
    destruct (processTurn_shown qa (input_type w) u s n1) as [Hm Hf].
    rewrite Hm, Hf. unfold display_messages. now rewrite map_app.
  - now rewrite app_nil_r, filter_display_messages.
Qed.

(** * What every session keeps *)

Lemma invoke_ok_inv (qa : ConversationalRetrievalChain) (m m' : Memory.t)
    (q a : string) :
  invoke qa m q = Ok (a, m') ->
  m' = Memory.append m (mkTurn user q) (mkTurn assistant a).
Proof.
  unfold invoke.
  destruct (retriever qa q) as [docs |]; [| discriminate]. cbn [bind].
  destruct (bound_prompt qa docs m q) as [b |]; [| discriminate]. cbn [bind].
  destruct (llm qa b) as [a' |]; [| discriminate]. cbn [bind].
  now intros [= <- <-].
Qed.

Lemma In_last_n {A : Type} (n : nat) (l : list A) (x : A) :
  In x (last_n n l) -> In x l.
Proof.
  unfold last_n. intros Hin.
  rewrite <- (firstn_skipn (length l - n) l).
  apply in_or_app. now right.
Qed.

Lemma transcript_of_app (xs ys : list (string * string)) :
  transcript_of (xs ++ ys) = transcript_of xs ++ transcript_of ys.
Proof. unfold transcript_of. apply flat_map_app. Qed.

Lemma fresh_well_formed :
  well_formed (_initialize_session_state empty_session) [].
Proof.
  constructor; cbn.
  - now left.
  - reflexivity.
  - unfold Memory.bounded. cbn. lia.
  - reflexivity.
  - intros t [].
  - intros e [].
Qed.

Lemma go_to_page_well_formed (target : string) (s : SessionState)
    (turns : list (string * string)) :
  target = "landing" \/ target = "chat" ->
  well_formed s turns -> well_formed (go_to_page target s) turns.
Proof.
  intros Ht [Hp Hk Hb Hm Hu Hmem]. constructor; cbn; assumption.
Qed.

Lemma reset_well_formed (s : SessionState) (turns : list (string * string)) :
  well_formed s turns -> well_formed (reset_conversation s) [].
Proof.
  intros [Hp Hk Hb Hm Hu Hmem]. constructor; cbn.
  - assumption.
  - assumption.
  - unfold Memory.bounded. cbn. lia.
  - reflexivity.
  - intros t [].
  - intros e [].
Qed.

Lemma processTurn_well_formed (qa : ConversationalRetrievalChain)
    (it u : string) (s : SessionState) (n : nat)
    (turns : list (string * string)) :
  u <> EmptyString ->
  well_formed s turns ->
  well_formed (session (processTurn qa it u s n))
    (turns ++ [(u, answer (processTurn qa it u s n))]).
Proof.
  intros Hu [Hp Hk Hb Hm Hut Hmem].
  destruct (processTurn_shown qa it u s n) as [Hmsg _].
  destruct (processTurn_page_k qa it u s n) as [Hpage Hkk].
  assert (Hmemory :
    memory (session (processTurn qa it u s n)) = memory s \/
    memory (session (processTurn qa it u s n))
    = Memory.append (memory s) (mkTurn user u)
        (mkTurn assistant (answer (processTurn qa it u s n)))).
  { destruct (invoke (chain_for qa it n) (memory s) u)
      as [[ans m'] | e] eqn:Hi.
    - right. rewrite (processTurn_ok _ _ _ _ _ _ _ Hi).
      cbn [session memory answer]. now apply invoke_ok_inv in Hi.
    - left. now rewrite (processTurn_raise _ _ _ _ _ _ Hi). }
  constructor.
  - now rewrite Hpage.
  - now rewrite Hkk.
  - destruct Hmemory as [-> | ->]; [assumption | now apply append_bounded].
  - rewrite Hmsg, transcript_of_app, Hm. reflexivity.
  - intros t Hin. apply in_app_or in Hin. destruct Hin as [Hin | [<- | []]].
    + now apply Hut.
    + exact Hu.
  - intros e Hin. destruct Hmemory as [Heq | Heq]; rewrite Heq in Hin.
    + destruct (Hmem e Hin) as [t [Ht He]].
      exists t. split; [apply in_or_app; now left | exact He].
    + rewrite append_window in Hin by assumption.
      apply In_last_n, in_app_or in Hin. destruct Hin as [Hin | [<- | []]].
      * destruct (Hmem e Hin) as [t [Ht He]].
        exists t. split; [apply in_or_app; now left | exact He].
      * exists (u, answer (processTurn qa it u s n)).
        split; [apply in_or_app; right; now left | reflexivity].
Qed.

Lemma submitted_nonempty (w : Widgets) (u : string) :
  submitted w = Some u -> u <> EmptyString.
Proof.
  unfold submitted. destruct (chat_input w) as [v |]; [| discriminate].
  destruct (String.eqb_spec v EmptyString); [discriminate |].
  now intros [= <-].
Qed.

Lemma render_chat_page_well_formed (env : Services) (w : Widgets)
    (s : SessionState) (n : nat) (turns : list (string * string)) :
  well_formed s turns ->
  exists turns', well_formed (state (render_chat_page env w s n)) turns'.
Proof.
  intros Hwf. destruct (back_home w) eqn:Hb.
  - exists turns. unfold render_chat_page. rewrite Hb. cbn [state].
    apply (go_to_page_well_formed "landing"); [now left | assumption].
  - destruct (_initialize_llm_components env n) as [[qa n1] | box] eqn:Hi.
    + rewrite (render_chat_page_ok _ _ _ _ _ _ Hb Hi).
      destruct (submitted w) as [u |] eqn:Hu; cbn [state].
      * pose proof (processTurn_well_formed qa (input_type w) u s n1 turns
                      (submitted_nonempty w u Hu) Hwf) as Hwf'.
        destruct (clear_chat w).
        -- exists []. now apply reset_well_formed in Hwf'.
        -- eexists. exact Hwf'.
      * destruct (clear_chat w).
        -- exists []. now apply reset_well_formed in Hwf.
        -- now exists turns.
    + rewrite (render_chat_page_stopped _ _ _ _ _ Hb Hi). now exists turns.
Qed.

Lemma run_well_formed (r : RunInput) (s : SessionState) (n : nat)
    (turns : list (string * string)) :
  well_formed s turns ->
  exists turns', well_formed (state (run r s n)) turns'.
Proof.
  intros Hwf. unfold run.
  destruct (page s =? "landing")%string.
  - exists turns. unfold render_landing_page.
    destruct (start_chat r); cbn [state]; [| assumption].
    apply go_to_page_well_formed; [now right | assumption].
  - destruct (page s =? "chat")%string.
    + now apply render_chat_page_well_formed with turns.
    + now exists turns.
Qed.

Lemma script_dict_ok (r : RunInput) (d : SessionDict) (n : nat) :
  dict_ok d -> dict_ok (session_after (script r d n)).
Proof.
  intros Hd. unfold script.
  destruct (LAWONTIPConfig_init (os_google r) (os_groq r));
    [| exact Hd].
  cbn [session_after]. right.
  destruct Hd as [-> | [s [turns [-> Hwf]]]].
  - destruct (run_well_formed r _ n [] fresh_well_formed) as [turns' Hwf'].
    eexists. exists turns'. split; [reflexivity | exact Hwf'].
  - rewrite initialize_to_dict.
    destruct (run_well_formed r s n turns Hwf) as [turns' Hwf'].
    eexists. exists turns'. split; [reflexivity | exact Hwf'].
Qed.

Lemma scripts_dict_ok (runs : list RunInput) (d : SessionDict) (n : nat) :
  dict_ok d -> dict_ok (fst (scripts runs d n)).
Proof.
  revert d n. induction runs as [| r runs IH]; intros d n Hd.
  - exact Hd.
  - cbn [scripts]. apply IH. now apply script_dict_ok.
Qed.

(** X8. In every session, whatever the sequence of script runs, the
    stored page is either absent (no run got past the configuration yet)
    or one of the two pages [run] knows, so a run that gets past the
    configuration always renders the landing page or the chat page; and
    the three keys of the session state are present together or absent
    together. *)
Theorem session_page_is_known (runs : list RunInput) (n : nat) :
  (fst (scripts runs empty_session n) = empty_session \/
   d_page (fst (scripts runs empty_session n)) = Some "landing" \/
   d_page (fst (scripts runs empty_session n)) = Some "chat") /\
  (d_page (fst (scripts runs empty_session n)) = None <->
   d_messages (fst (scripts runs empty_session n)) = None) /\
  (d_page (fst (scripts runs empty_session n)) = None <->
   d_memory (fst (scripts runs empty_session n)) = None).
Proof.
  destruct (scripts_dict_ok runs empty_session n (or_introl eq_refl))
    as [-> | [s [turns [-> Hwf]]]].
  - split; [now left |]. split; split; reflexivity.
  - split.
    + right. cbn [to_dict d_page].
      destruct (wf_page _ _ Hwf) as [-> | ->]; [now left | now right].
    + split; split; discriminate.
Qed.

(** X9. In every session the stored transcript is a sequence of complete
    pairs, a user message with a non-empty utterance followed by the
    assistant message that answered it: no utterance is ever stored
    without its answer (a failed turn stores the apology), and no answer
    without its utterance. *)
Theorem transcript_is_paired (runs : list RunInput) (n : nat)
    (msgs : list Message) :
  d_messages (fst (scripts runs empty_session n)) = Some msgs ->
  exists turns : list (string * string),
    msgs = transcript_of turns /\
    length msgs = 2 * length turns /\
    (forall t, In t turns -> fst t <> EmptyString).
Proof.
  intros Hm.
  destruct (scripts_dict_ok runs empty_session n (or_introl eq_refl))
    as [Heq | [s [turns [Heq Hwf]]]]; rewrite Heq in Hm.
  - discriminate.
  - cbn in Hm. injection Hm as <-. exists turns.
    split; [exact (wf_messages _ _ Hwf) |]. split.
    + rewrite (wf_messages _ _ Hwf). unfold transcript_of.
      clear. induction turns as [| t turns IH]; cbn; [reflexivity | lia].
    + exact (wf_utterances _ _ Hwf).
Qed.

(** X10. In every session the stored memory has window size 2 and holds
    at most 2 exchanges (its history at most 4 turns), and every exchange
    it holds is a turn of the current transcript: the user's utterance
    and the answer that was shown for it stand in the transcript as a
    pair. *)
Theorem memory_follows_transcript (runs : list RunInput) (n : nat)
    (m : Memory.t) :
  d_memory (fst (scripts runs empty_session n)) = Some m ->
  Memory.k m = 2 /\
  length (Memory.exchanges m) <= 2 /\
  length (Memory.history m) <= 4 /\
  exists turns : list (string * string),
    d_messages (fst (scripts runs empty_session n))
    = Some (transcript_of turns) /\
    forall e, In e (Memory.exchanges m) ->
              exists t, In t turns /\ e = exchange_of t.
Proof.
  intros Hm.
  destruct (scripts_dict_ok runs empty_session n (or_introl eq_refl))
    as [Heq | [s [turns [Heq Hwf]]]]; rewrite Heq in Hm |- *.
  - discriminate.
  - cbn in Hm. injection Hm as <-.
    pose proof (wf_k _ _ Hwf) as Hk.
    pose proof (wf_bounded _ _ Hwf) as Hb.
    unfold Memory.bounded in Hb. rewrite Hk in Hb.
    split; [exact Hk |]. split; [exact Hb |]. split.
    + unfold Memory.history. rewrite length_turns_of. lia.
    + exists turns. cbn [to_dict d_messages].
      rewrite (wf_messages _ _ Hwf). split; [reflexivity |].
      exact (wf_memory _ _ Hwf).
Qed.

(** * Binding the templates *)

Lemma selected_input_variables (it : string) (n : nat) :
  input_variables (fst (selectTemplate it n))
  = ["context"; "question"; "chat_history"].
Proof.
  unfold selectTemplate.
  destruct (it =? "Describe a scenario")%string; reflexivity.
Qed.

(** Binding either template, by which of its three names are bound. *)
Lemma format_selected (it : string) (n : nat) (kw : Kwargs) :
  match lookup "context" kw, lookup "chat_history" kw,
        lookup "question" kw with
  | Some _, Some _, Some _ =>
      exists p, format (fst (selectTemplate it n)) kw = Ok p
  | None, _, _ =>
      format (fst (selectTemplate it n)) kw
      = Raise (binding_error "context")
  | Some _, None, _ =>
      format (fst (selectTemplate it n)) kw
      = Raise (binding_error "chat_history")
  | Some _, Some _, None =>
      format (fst (selectTemplate it n)) kw
      = Raise (binding_error "question")
  end.
Proof.
  unfold selectTemplate, format.
  destruct (it =? "Describe a scenario")%string;
    cbn [fst _get_prompt_template _get_scenario_prompt_template template];
    destruct (lookup "context" kw) as [c |] eqn:Hc;
    destruct (lookup "chat_history" kw) as [h |] eqn:Hh;
    destruct (lookup "question" kw) as [q |] eqn:Hq;
    cbv -[lookup]; rewrite ?Hc; cbv -[lookup];
    rewrite ?Hh; cbv -[lookup]; rewrite ?Hq; cbv -[lookup];
    try reflexivity; try (eexists; reflexivity).
Qed.

(** X11. The placeholders of both template texts are exactly the three
    names the code declares as input variables: for either input type and
    any keyword arguments, binding succeeds exactly when context,
    question and chat_history are all bound, whatever their values; when
    it fails, the error is a TemplateBindingError that names a declared
    variable which is not bound. *)
Theorem binding_needs_declared_variables (it : string) (n : nat)
    (kw : Kwargs) :
  ((exists p, format (fst (selectTemplate it n)) kw = Ok p) <->
   (forall v, In v (input_variables (fst (selectTemplate it n))) ->
              lookup v kw <> None)) /\
  (forall e, format (fst (selectTemplate it n)) kw = Raise e ->
             kind e = TemplateBindingError /\
             In (message e) (input_variables (fst (selectTemplate it n))) /\
             lookup (message e) kw = None).
Proof.
  pose proof (format_selected it n kw) as H.
  rewrite selected_input_variables.
  destruct (lookup "context" kw) as [c |] eqn:Hc;
    [destruct (lookup "chat_history" kw) as [h |] eqn:Hh;
       [destruct (lookup "question" kw) as [q |] eqn:Hq |] |].
  - split.
    + split; [| intros _; exact H].
      intros _ v [<- | [<- | [<- | []]]]; congruence.
    + intros e He. destruct H as [p Hp]. congruence.
  - split.
    + split; [intros [p Hp]; congruence |].
      intros Hall. exfalso. apply (Hall "question"); [cbn; tauto | exact Hq].
    + intros e He. rewrite H in He. injection He as <-. cbn.
      split; [reflexivity |]. split; [tauto | exact Hq].
  - split.
    + split; [intros [p Hp]; congruence |].
      intros Hall. exfalso.
      apply (Hall "chat_history"); [cbn; tauto | exact Hh].
    + intros e He. rewrite H in He. injection He as <-. cbn.
      split; [reflexivity |]. split; [tauto | exact Hh].
  - split.
    + split; [intros [p Hp]; congruence |].
      intros Hall. exfalso. apply (Hall "context"); [cbn; tauto | exact Hc].
    + intros e He. rewrite H in He. injection He as <-. cbn.
      split; [reflexivity |]. split; [tauto | exact Hc].
Qed.

(** * Reaching the chat page, and the mode of a turn *)

Lemma script_without_start (r : RunInput) (d : SessionDict) (n : nat) :
  start_chat r = false ->
  d = empty_session \/ d = to_dict (_initialize_session_state empty_session) ->
  session_after (script r d n) = empty_session \/
  session_after (script r d n)
  = to_dict (_initialize_session_state empty_session).
Proof.
  intros Hs Hd. unfold script.
  destruct (LAWONTIPConfig_init (os_google r) (os_groq r));
    [| exact Hd].
  right. cbn [session_after]. f_equal.
  assert (Hinit : _initialize_session_state d
                  = _initialize_session_state empty_session).
  { destruct Hd as [-> | ->]; [reflexivity | apply initialize_to_dict]. }
  rewrite Hinit. unfold run.
  cbn [_initialize_session_state empty_session d_page page
       String.eqb Ascii.eqb Bool.eqb].
  unfold render_landing_page. now rewrite Hs.
Qed.

(** X12. A session starts on the landing page and only the start button
    leads off it: as long as no run presses it, whatever else the runs
    press or type, the session state is untouched or exactly the freshly
    initialised one (landing page, empty transcript, empty memory of
    window size 2), so no utterance is ever processed. *)
Theorem chat_needs_start_button (runs : list RunInput) (n : nat) :
  (forall r, In r runs -> start_chat r = false) ->
  fst (scripts runs empty_session n) = empty_session \/
  fst (scripts runs empty_session n)
  = {| d_page := Some "landing"; d_messages := Some [];
       d_memory := Some (Memory.new 2) |}.
Proof.
  change {| d_page := Some "landing"; d_messages := Some [];
            d_memory := Some (Memory.new 2) |}
    with (to_dict (_initialize_session_state empty_session)).
  assert (Hgen : forall d : SessionDict,
             d = empty_session \/
             d = to_dict (_initialize_session_state empty_session) ->
             forall m : nat,
               (forall r, In r runs -> start_chat r = false) ->
               fst (scripts runs d m) = empty_session \/
               fst (scripts runs d m)
               = to_dict (_initialize_session_state empty_session)).
  { induction runs as [| r runs IH]; intros d Hd m Hall.
    - exact Hd.
    - cbn [scripts]. apply IH.
      + apply script_without_start; [apply Hall; now left | exact Hd].
      + intros r' Hin. apply Hall. now right. }
  intros Hall. apply Hgen; [now left | exact Hall].
Qed.

Lemma templates_differ : prompt_template <> scenario_template.
Proof. vm_compute. discriminate. Qed.

(** X13. The mode of a turn is not sticky, and an unknown input type
    falls back to the question text.  Whatever prompt the chain held
    before the turn (from the initialisation or from an earlier turn),
    a turn whose retrieval returns hands the model the prompt bound from
    the scenario text exactly when its own input type reads "Describe a
    scenario", and the prompt bound from the question text for every
    other value; its answer is what the model returns for that prompt
    (the apology if the model fails), and its whole result is that of
    the turn on the chain as it was initialised. *)
Theorem mode_is_set_every_turn (qa : ConversationalRetrievalChain)
    (earlier : PromptTemplate) (it u : string) (s : SessionState) (n : nat)
    (docs : list Document) :
  retriever qa u = Ok docs ->
  exists p : string,
    (it = "Describe a scenario" ->
     format_from scenario_template None
       [ ("context", combine_documents docs);
         ("chat_history", chat_history_str qa (Memory.history (memory s)));
         ("question", u) ] = Ok p) /\
    (it <> "Describe a scenario" ->
     format_from prompt_template None
       [ ("context", combine_documents docs);
         ("chat_history", chat_history_str qa (Memory.history (memory s)));
         ("question", u) ] = Ok p) /\
    answer (processTurn (set_prompt qa earlier) it u s n)
    = match llm qa p with Ok a => a | Raise _ => apology end /\
    processTurn (set_prompt qa earlier) it u s n = processTurn qa it u s n.
Proof.
  intros Hr.
  pose proof (format_selected it n
                [ ("context", combine_documents docs);
                  ("chat_history",
                   chat_history_str qa (Memory.history (memory s)));
                  ("question", u) ]) as H.
  cbn [lookup String.eqb Ascii.eqb Bool.eqb] in H.
  destruct H as [p Hp]. exists p.
  split; [| split; [| split]].
  - intros ->. exact Hp.
  - intros Hne. unfold selectTemplate in Hp.
    destruct (String.eqb_spec it "Describe a scenario");
      [contradiction | exact Hp].
  - apply (processTurn_answer_from_prompt (set_prompt qa earlier) it u s n
             docs p Hr).
    exact Hp.
  - reflexivity.
Qed.

(** * The properties above on sample runs *)

Lemma missing_key_stops_script_witness :
  (is_set (os_google Sample.no_keys) = false \/
   is_set (os_groq Sample.no_keys) = false) /\
  session_after (script Sample.no_keys empty_session 0) = empty_session /\
  ended (script Sample.no_keys empty_session 0) = Stopped.
Proof.
  assert (H : is_set (os_google Sample.no_keys) = false \/
              is_set (os_groq Sample.no_keys) = false)
    by (left; reflexivity).
  destruct (missing_key_stops_script Sample.no_keys empty_session 0 H)
    as [Hs [He _]].
  split; [exact H |]. split; [exact Hs | exact He].
Defined.

Lemma chat_page_stops_iff_init_fails_witness :
  back_home (Stub.ask "Ask a legal question" "What is theft?") = false /\
  control (render_chat_page Sample.env_no_model
             (Stub.ask "Ask a legal question" "What is theft?")
             Stub.session 0) = Stopped /\
  state (render_chat_page Sample.env_no_model
           (Stub.ask "Ask a legal question" "What is theft?")
           Stub.session 0) = Stub.session.
Proof.
  pose proof (chat_page_stops_iff_init_fails Sample.env_no_model
                (Stub.ask "Ask a legal question" "What is theft?")
                Stub.session 0 eq_refl) as [Hiff Hstop].
  assert (Hc : control (render_chat_page Sample.env_no_model
                          (Stub.ask "Ask a legal question" "What is theft?")
                          Stub.session 0) = Stopped).
  { apply Hiff. right. exists Sample.no_groq. reflexivity. }
  split; [reflexivity |]. split; [exact Hc |].
  exact (proj1 (Hstop Hc)).
Defined.

Lemma back_and_forth_keeps_session_witness :
  page Stub.session = "chat" /\
  back_home (chat_widgets Sample.leave) = true /\
  start_chat Sample.press_start = true /\
  state (run Sample.press_start
           (state (run Sample.leave Stub.session 0)) 0) = Stub.session.
Proof.
  split; [reflexivity |]. split; [reflexivity |]. split; [reflexivity |].
  exact (proj2 (proj2 (proj2 (proj2
    (back_and_forth_keeps_session Sample.leave Sample.press_start
       Stub.session 0 0 eq_refl eq_refl eq_refl))))).
Defined.

Lemma idle_run_keeps_session_witness :
  submitted (chat_widgets Sample.idle) = None /\
  session_after (script Sample.idle (to_dict Stub.session) 0)
  = to_dict Stub.session.
Proof.
  split; [reflexivity |].
  exact (idle_run_keeps_session Sample.idle Stub.session 0
           eq_refl eq_refl eq_refl eq_refl).
Defined.

Lemma clear_chat_discards_turn_witness :
  _initialize_llm_components Stub.env 0 = inl (Stub.qa, 1) /\
  clear_chat Sample.press_clear = true /\
  messages (state (render_chat_page Stub.env Sample.press_clear
                     Stub.session 0)) = [] /\
  answered (render_chat_page Stub.env Sample.press_clear Stub.session 0)
  = Some "Answer A".
Proof.
  pose proof (clear_chat_discards_turn Stub.env Sample.press_clear
                Stub.session 0 Stub.qa 1 eq_refl eq_refl eq_refl)
    as [Hm [_ [_ [_ [_ Hturn]]]]].
  split; [reflexivity |]. split; [reflexivity |]. split; [exact Hm |].
  rewrite (proj1 (Hturn "And robbery?" eq_refl)). reflexivity.
Defined.

Lemma next_run_repeats_chat_messages_witness :
  _initialize_llm_components Sample.env_timeout 0
  = inl (Stub.qa_timeout, 1) /\
  rendered (render_chat_page Sample.env_timeout
              (Stub.ask "Ask a legal question" "And robbery?")
              Stub.session 0)
  = [ chat_message "user" "What is theft?";
      chat_message "assistant" "See section 378 IPC.";
      chat_message "user" "And robbery?";
      st_error
        "Error generating response: GenerationTimeout: no reply within the deadline";
      chat_message "assistant" apology ] /\
  rendered (render_chat_page Stub.env (chat_widgets Sample.idle)
              (state (render_chat_page Sample.env_timeout
                        (Stub.ask "Ask a legal question" "And robbery?")
                        Stub.session 0)) 0)
  = [ chat_message "user" "What is theft?";
      chat_message "assistant" "See section 378 IPC.";
      chat_message "user" "And robbery?";
      chat_message "assistant" apology ].
Proof.
  split; [reflexivity |]. split; [reflexivity |].
  rewrite (next_run_repeats_chat_messages Sample.env_timeout Stub.env
             (Stub.ask "Ask a legal question" "And robbery?")
             (chat_widgets Sample.idle) Stub.session 0 0
             Stub.qa_timeout Stub.qa 1 1
             eq_refl eq_refl eq_refl eq_refl eq_refl eq_refl).
  reflexivity.
Defined.

Lemma transcript_is_paired_witness :
  d_messages
    (fst (scripts [ Sample.press_start;
                    Sample.say "Ask a legal question" "What is theft?"
                      Stub.env;
                    Sample.say "Describe a scenario" "A struck B."
                      Sample.env_timeout ]
            empty_session 0))
  = Some [ mkMessage "user" "What is theft?";
           mkMessage "assistant" "Answer A";
           mkMessage "user" "A struck B.";
           mkMessage "assistant" apology ] /\
  exists turns : list (string * string),
    [ mkMessage "user" "What is theft?";
      mkMessage "assistant" "Answer A";
      mkMessage "user" "A struck B.";
      mkMessage "assistant" apology ] = transcript_of turns.
Proof.
  assert (H : d_messages
                (fst (scripts [ Sample.press_start;
                                Sample.say "Ask a legal question"
                                  "What is theft?" Stub.env;
                                Sample.say "Describe a scenario"
                                  "A struck B." Sample.env_timeout ]
                        empty_session 0))
              = Some [ mkMessage "user" "What is theft?";
                       mkMessage "assistant" "Answer A";
                       mkMessage "user" "A struck B.";
                       mkMessage "assistant" apology ])
    by (vm_compute; reflexivity).
  split; [exact H |].
  destruct (transcript_is_paired _ 0 _ H) as [turns [Ht _]].
  exists turns. exact Ht.
Defined.

Lemma memory_follows_transcript_witness :
  d_memory
    (fst (scripts [ Sample.press_start;
                    Sample.say "Ask a legal question" "What is theft?"
                      Stub.env;
                    Sample.say "Describe a scenario" "A struck B."
                      Sample.env_timeout ]
            empty_session 0))
  = Some {| Memory.k := 2;
            Memory.exchanges :=
              [ (mkTurn user "What is theft?",
                 mkTurn assistant "Answer A") ] |} /\
  Memory.k {| Memory.k := 2;
              Memory.exchanges :=
                [ (mkTurn user "What is theft?",
                   mkTurn assistant "Answer A") ] |} = 2.
Proof.
  assert (H : d_memory
                (fst (scripts [ Sample.press_start;
                                Sample.say "Ask a legal question"
                                  "What is theft?" Stub.env;
                                Sample.say "Describe a scenario"
                                  "A struck B." Sample.env_timeout ]
                        empty_session 0))
              = Some {| Memory.k := 2;
                        Memory.exchanges :=
                          [ (mkTurn user "What is theft?",
                             mkTurn assistant "Answer A") ] |})
    by (vm_compute; reflexivity).
  split; [exact H |].
  exact (proj1 (memory_follows_transcript _ 0 _ H)).
Defined.

Lemma chat_needs_start_button_witness :
  (forall r,
      In r [ Sample.idle;
             Sample.say "Ask a legal question" "What is theft?" Stub.env ] ->
      start_chat r = false) /\
  (fst (scripts [ Sample.idle;
                  Sample.say "Ask a legal question" "What is theft?"
                    Stub.env ]
          empty_session 0) = empty_session \/
   fst (scripts [ Sample.idle;
                  Sample.say "Ask a legal question" "What is theft?"
                    Stub.env ]
          empty_session 0)
   = {| d_page := Some "landing"; d_messages := Some [];
        d_memory := Some (Memory.new 2) |}).
Proof.
  assert (H : forall r,
             In r [ Sample.idle;
                    Sample.say "Ask a legal question" "What is theft?"
                      Stub.env ] ->
             start_chat r = false).
  { intros r [<- | [<- | []]]; reflexivity. }
  split; [exact H |].
  exact (chat_needs_start_button _ 0 H).
Defined.

Lemma mode_changes_bound_prompt_witness :
  retriever Sample.qa_echo "A struck B." = Ok Stub.documents /\
  answer (processTurn Sample.qa_echo "Describe a scenario" "A struck B."
            Stub.session 0)
  <> answer (processTurn Sample.qa_echo "Ask a legal question"
               "A struck B." Stub.session 0).
Proof.
  destruct (proj2 (mode_changes_bound_prompt Sample.qa_echo Stub.documents
                     Stub.session "A struck B." 0 0 eq_refl))
    as [pq [ps [_ [_ [_ [_ [_ Hecho]]]]]]].
  split; [reflexivity |].
  apply Hecho. intros bound. reflexivity.
Defined.

Lemma mode_is_set_every_turn_witness :
  retriever Sample.qa_echo "What is theft?" = Ok Stub.documents /\
  processTurn
    (set_prompt Sample.qa_echo (fst (_get_scenario_prompt_template 7)))
    "Ask a legal question" "What is theft?" Stub.session 0
  = processTurn Sample.qa_echo "Ask a legal question" "What is theft?"
      Stub.session 0.
Proof.
  destruct (mode_is_set_every_turn Sample.qa_echo
              (fst (_get_scenario_prompt_template 7))
              "Ask a legal question" "What is theft?" Stub.session 0
              Stub.documents eq_refl)
    as [p [_ [_ [_ Hsame]]]].
  split; [reflexivity | exact Hsame].
Defined.
